(** * TruthGuard backend: the analysis API of [app.py]

    A shallow embedding of the request handlers of [app.py] and the
    properties of its specification.

    Conventions of the embedding.
    - A Python [str] is a list of Unicode code points ([str]); slicing and
      [split] work on code points, as in Python.
    - A Python [float] is an exact rational ([Q]): [random.uniform],
      the comparison [mock_score < 0.6] and the [.2f] format are computed
      on the exact value. That the bounds of the two [random.uniform]
      calls survive the rounding of binary64 is shown apart ([Binary64]).
    - A [dict] literal is an association list in the order the source
      writes its keys.
    - The module-level generator of [random] is an injected random source
      ([RandomSource]), threaded through the handlers with a log of what
      each handler did to the classifier ([event]).
    - [transformers] and [PIL] are external: what the import, the pipeline
      factory, the classifier and [Image.open] do is a parameter ([Env]).
    - Exceptions are the instances of [Exception]; process exits
      ([KeyboardInterrupt], [SystemExit]) are outside the model. *)

From Stdlib Require Import List String Ascii Strings.Byte ZArith NArith QArith Lia Lqa Bool.
From Stdlib Require Import Qabs DecimalString.
From Stdlib Require Import Floats.PrimFloat Floats.FloatOps Floats.SpecFloat.
From Stdlib Require Import DecimalPos DecimalZ.
Import ListNotations.

Local Open Scope string_scope.
Local Open Scope list_scope.
Local Open Scope Z_scope.
#[local] Set Warnings "-register-all".

(** ** Python values *)

Module Py.

(** A character is a Unicode code point. *)
Definition char := N.
Definition str := list char.

(** A source literal (ASCII) as a [str]. *)
Definition lit (s : string) : str :=
  map (fun a => N_of_ascii a) (list_ascii_of_string s).

(** [str(n)] for an [int]. *)
Definition str_of_int (n : Z) : str :=
  lit (NilZero.string_of_int (Z.to_int n)).

(** [' '.isspace()]: the code points [str.split()] separates on. *)
Definition isspace (c : char) : bool :=
  let c := Z.of_N c in
  ((9 <=? c) && (c <=? 13)) || ((28 <=? c) && (c <=? 32))
  || (c =? 133) || (c =? 160) || (c =? 5760)
  || ((8192 <=? c) && (c <=? 8202))
  || (c =? 8232) || (c =? 8233) || (c =? 8239) || (c =? 8287) || (c =? 12288).

(** [s.split()]: the maximal runs of characters that are not whitespace.
    [cur] is the run being read, last character first. *)
Definition flush (cur : str) (rest : list str) : list str :=
  match cur with
  | [] => rest
  | _ :: _ => rev cur :: rest
  end.

Fixpoint split_from (cur : str) (s : str) : list str :=
  match s with
  | [] => flush cur []
  | c :: s' =>
      if isspace c then flush cur (split_from [] s')
      else split_from (c :: cur) s'
  end.

Definition split (s : str) : list str := split_from [] s.

(** [s[:n]]. *)
Definition slice_to (n : nat) {A} (s : list A) : list A := firstn n s.

(** [format(q, '.2f')]: two decimals, the exact value rounded half to even. *)
Definition round_half_even (q : Q) : Z :=
  let n := Qnum q in
  let d := Zpos (Qden q) in
  let fl := n / d in
  let r2 := 2 * (n mod d) in
  if r2 <? d then fl
  else if d <? r2 then fl + 1
  else if Z.even fl then fl else fl + 1.

Definition two_digits (n : Z) : str :=
  str_of_int (n / 10) ++ str_of_int (n mod 10).

Definition format_2f (q : Q) : str :=
  let a := Qabs q in
  let h := round_half_even (a * 100)%Q in
  (if Qlt_le_dec q 0%Q then lit "-" else [])
    ++ str_of_int (h / 100) ++ lit "." ++ two_digits (h mod 100).

(** A value that a handler puts in its response. *)
Inductive value :=
| VStr (s : str)
| VFloat (q : Q)
| VBool (b : bool)
| VList (l : list value)
| VDict (d : list (string * value)).

Definition dict := list (string * value).

(** [d[k]] on a response, [None] where Python raises [KeyError]. *)
Fixpoint lookup (k : string) (d : dict) : option value :=
  match d with
  | [] => None
  | (k', v) :: d' => if String.eqb k k' then Some v else lookup k d'
  end.

Definition keys (d : dict) : list string := map fst d.

(** [v[k]] where [v] is itself a value. *)
Definition field (k : string) (v : value) : option value :=
  match v with
  | VDict d => lookup k d
  | _ => None
  end.

(** The exception classes the program names or meets. *)
Inductive exn_class :=
| ImportError
| ModuleNotFoundError
| RuntimeError
| ValueError
| OSError
| MemoryError
| IndexError
| UnidentifiedImageError.

(** [issubclass(c, ImportError)]. *)
Definition is_ImportError (c : exn_class) : bool :=
  match c with
  | ImportError | ModuleNotFoundError => true
  | _ => false
  end.

(** A raised exception: one of a library, or FastAPI's [HTTPException]. *)
Inductive exn :=
| Exc (c : exn_class) (msg : str)
| HTTPException (status_code : Z) (detail : str).

(** [str(e)]. *)
Definition str_of_exn (e : exn) : str :=
  match e with
  | Exc _ msg => msg
  | HTTPException sc d => str_of_int sc ++ lit ": " ++ d
  end.

Definition catches_ImportError (e : exn) : bool :=
  match e with
  | Exc c _ => is_ImportError c
  | HTTPException _ _ => false
  end.

End Py.

Import Py.

(** ** The random source

    [random.random()] returns a float in [[0.0, 1.0)] and
    [random._randbelow(n)] an int below [n]; the generator behind them is
    injected, with these two ranges as its contract. *)

Class RandomSource (G : Type) := {
  random : G -> Q * G;
  randbelow : N -> G -> N * G;
  random_range : forall g, (0 <= fst (random g))%Q /\ (fst (random g) < 1)%Q;
  randbelow_range : forall n g, (0 < n)%N -> (fst (randbelow n g) < n)%N
}.

(** ** What a handler does to a classifier *)

Definition handle := nat.

Inductive event :=
| Load (h : handle)               (* classifier = pipeline(...) *)
| Call (h : handle) (arg : str)   (* classifier(arg) *)
| Del (h : handle)                (* del classifier *)
| GcCollect.                      (* gc.collect() *)

Record world (G : Type) := World {
  rng : G;
  next_handle : handle;
  log : list event
}.
Arguments World {G}.
Arguments rng {G}.
Arguments next_handle {G}.
Arguments log {G}.

(** ** The external libraries *)

(** One entry of a sentiment pipeline's output,
    [{"label": ..., "score": ...}]. *)
Record prediction := Prediction {
  label : str;
  score : Q
}.

Definition classifier := str -> exn + list prediction.

(** [pipeline(task, model=...)]. *)
Definition pipeline := str -> str -> exn + classifier.

(** What [Image.open] gives: the handler reads [image.size] only. *)
Record image := Image {
  size : Z * Z
}.

Record Env := {
  (** the outcome of [from transformers import pipeline] *)
  transformers_import : exn + pipeline;
  (** [Image.open(io.BytesIO(b))] *)
  Image_open : list byte -> exn + image
}.

(** ** The monad of a handler: state and exceptions

    An exception keeps the state reached when it was raised. *)

Definition M (G A : Type) : Type := world G -> (exn + A) * world G.

Definition ret {G A} (a : A) : M G A := fun w => (inr a, w).

Definition raise {G A} (e : exn) : M G A := fun w => (inl e, w).

Definition bind {G A B} (m : M G A) (k : A -> M G B) : M G B :=
  fun w =>
    match m w with
    | (inr a, w') => k a w'
    | (inl e, w') => (inl e, w')
    end.

(** [try: body except <catches> as e: handler e]. *)
Definition try_except {G A} (body : M G A) (catches : exn -> bool)
    (handler : exn -> M G A) : M G A :=
  fun w =>
    match body w with
    | (inr a, w') => (inr a, w')
    | (inl e, w') => if catches e then handler e w' else (inl e, w')
    end.

(** The outcome of a call into a library. *)
Definition call {G A} (r : exn + A) : M G A := fun w => (r, w).

Definition emit {G} (e : event) : M G unit :=
  fun w => (inr tt, World (rng w) (next_handle w) (log w ++ [e])).

Declare Scope py_scope.
Delimit Scope py_scope with py.
Notation "x <- m ;; k" := (bind m (fun x => k))
  (at level 61, m at next level, right associativity) : py_scope.
Notation "m ;;; k" := (bind m (fun _ => k))
  (at level 61, right associativity) : py_scope.
Local Open Scope py_scope.

(** [except Exception] catches every exception of the model. *)
Definition Exception (e : exn) : bool := true.

Section Random.

Context {G : Type} {RS : RandomSource G}.

Definition random_random : M G Q :=
  fun w =>
    let (r, g) := random (rng w) in
    (inr r, World g (next_handle w) (log w)).

(** [random.uniform(a, b)] is [a + (b - a) * random()], here on the exact
    values; [Binary64.uniform64] is the same with each operation rounded. *)
Definition uniform (a b : Q) : M G Q :=
  r <- random_random ;;
  ret (a + (b - a) * r)%Q.

Definition random_randbelow (n : N) : M G N :=
  fun w =>
    let (i, g) := randbelow n (rng w) in
    (inr i, World g (next_handle w) (log w)).

(** [random.choice(seq)] is [seq[_randbelow(len(seq))]], and raises
    [IndexError] on an empty sequence. *)
Definition choice {A} (seq : list A) : M G A :=
  match seq with
  | [] => raise (Exc IndexError (lit "Cannot choose from an empty sequence"))
  | _ :: _ =>
      i <- random_randbelow (N.of_nat (List.length seq)) ;;
      match nth_error seq (N.to_nat i) with
      | Some x => ret x
      | None => raise (Exc IndexError (lit "list index out of range"))
      end
  end.

End Random.

(** ** The application *)

(** Request schemas. *)
Record TextAnalysisRequest := { text : str }.
Record UrlAnalysisRequest := { url : str }.

(** An uploaded file; [file.read()] gives its bytes. *)
Record UploadFile := { file_bytes : list byte }.

(** What [mock_analysis] is given as [input_text]: a [str], or [None]. *)
Definition truthy (x : option str) : bool :=
  match x with
  | Some (_ :: _) => true
  | Some [] => false
  | None => false
  end.

Definition py_str (x : option str) : str :=
  match x with
  | Some s => s
  | None => lit "None"
  end.

Definition Qltb (x y : Q) : bool := negb (Qle_bool y x).

Definition model_name : str :=
  lit "distilbert-base-uncased-finetuned-sst-2-english".

Section App.

Context {G : Type} {RS : RandomSource G}.
Variable env : Env.

Definition import_transformers : M G (option pipeline) :=
  try_except
    (pipeline <- call (transformers_import env) ;;
     ret (Some pipeline))
    catches_ImportError
    (fun _ => ret None).

Definition root : dict :=
  [("message", VStr (lit "AI Analysis API is running"));
   ("status", VStr (lit "healthy"));
   ("memory_optimized", VBool true);
   ("endpoints", VDict [
      ("text", VStr (lit "/analyze/text"));
      ("url", VStr (lit "/analyze/url"));
      ("image", VStr (lit "/analyze/image"));
      ("health", VStr (lit "/health"))])].

Definition health_check : dict :=
  [("status", VStr (lit "ok")); ("message", VStr (lit "Service is healthy"))].

Definition mock_analysis (content_type : str) (input_text : option str)
    : M G value :=
  mock_score <- uniform 0.3 0.9 ;;
  let is_misinfo := Qltb mock_score 0.6 in
  biasDetected <- choice [true; false] ;;
  manipulatedContent <- choice [true; false] ;;
  ret (VDict [
    ("type", VStr content_type);
    ("credibilityScore", VFloat mock_score);
    ("analysis", VStr (lit "Analysis complete. Content scored "
                       ++ format_2f mock_score ++ lit " for credibility."));
    ("flags", VDict [
      ("potentialMisinformation", VBool is_misinfo);
      ("needsFactChecking", VBool is_misinfo);
      ("biasDetected", VBool biasDetected);
      ("manipulatedContent", VBool manipulatedContent)]);
    ("sources", VList [VStr (lit "Memory-Optimized Analysis")]);
    ("details", VDict [
      ("sentiment", VStr (lit "N/A"));
      ("confidence", VFloat mock_score);
      ("keyTerms", VList (map VStr
         (if truthy input_text then slice_to 5 (split (py_str input_text))
          else [])))])
  ]).

(** [{"result": r}]. *)
Definition result_of (r : value) : value := VDict [("result", r)].

(** [classifier = pipeline(task, model=...)]. The handle numbers the calls
    of [pipeline] that gave a classifier: it tells the log which call a
    classifier came from, not whether two calls gave the same object. *)
Definition make_classifier (p : pipeline) (task model : str)
    : M G (handle * classifier) :=
  fun w =>
    match p task model with
    | inl e => (inl e, w)
    | inr c =>
        (inr (next_handle w, c),
         World (rng w) (S (next_handle w)) (log w ++ [Load (next_handle w)]))
    end.

Definition invoke (c : handle * classifier) (arg : str)
    : M G (list prediction) :=
  emit (Call (fst c) arg) ;;;
  call (snd c arg).

(** [result[0]]. *)
Definition item0 {A} (l : list A) : M G A :=
  match l with
  | [] => raise (Exc IndexError (lit "list index out of range"))
  | x :: _ => ret x
  end.

Definition analyze_text (request : TextAnalysisRequest) : M G value :=
  pipeline <- import_transformers ;;
  match pipeline with
  | None =>
      r <- mock_analysis (lit "text") (Some (text request)) ;;
      ret (result_of r)
  | Some pipeline =>
      try_except
        (classifier <- make_classifier pipeline
                         (lit "sentiment-analysis") model_name ;;
         result <- invoke classifier (slice_to 512 (text request)) ;;
         emit (Del (fst classifier)) ;;;
         emit GcCollect ;;;
         r0 <- item0 result ;;
         r0' <- item0 result ;;
         ret (result_of (VDict [
           ("type", VStr (lit "text"));
           ("credibilityScore", VFloat (score r0));
           ("analysis", VStr (lit "Text sentiment: " ++ label r0'));
           ("simplified", VBool true)
         ])))
        Exception
        (fun e =>
           r <- mock_analysis (lit "text") (Some (text request)) ;;
           ret (result_of r))
  end.

Definition analyze_url (request : UrlAnalysisRequest) : M G value :=
  r <- mock_analysis (lit "url") (Some (url request)) ;;
  ret (result_of r).

Definition analyze_image (file : UploadFile) : M G value :=
  try_except
    (image_bytes <- ret (file_bytes file) ;;
     image <- call (Image_open env image_bytes) ;;
     credibilityScore <- uniform 0.5 0.9 ;;
     ret (result_of (VDict [
       ("type", VStr (lit "image"));
       ("credibilityScore", VFloat credibilityScore);
       ("analysis", VStr (lit "Image processed: "
                          ++ str_of_int (fst (size image)) ++ lit "x"
                          ++ str_of_int (snd (size image)) ++ lit " pixels"));
       ("basic_analysis", VBool true)
     ])))
    Exception
    (fun e =>
       raise (HTTPException 500
                (lit "Image processing failed: " ++ str_of_exn e))).

Definition analyze_video : M G value :=
  raise (HTTPException 501 (lit "Video analysis not implemented")).

(** The four [POST /analyze/...] routes. The video route declares no
    parameter: whatever body comes with the request is not read. *)
Inductive request :=
| POST_analyze_text (r : TextAnalysisRequest)
| POST_analyze_url (r : UrlAnalysisRequest)
| POST_analyze_image (file : UploadFile)
| POST_analyze_video (body : option (list byte)).

Definition route (rq : request) : M G value :=
  match rq with
  | POST_analyze_text r => analyze_text r
  | POST_analyze_url r => analyze_url r
  | POST_analyze_image f => analyze_image f
  | POST_analyze_video _ => analyze_video
  end.

End App.

(** What the framework sends back: a returned value is a 200, an
    [HTTPException] its own status with its detail, any other exception
    a 500. *)
Record response := Response {
  status_code_of : Z;
  body_of : value
}.

Definition respond (r : exn + value) : response :=
  match r with
  | inr v => Response 200 v
  | inl (HTTPException sc d) => Response sc (VDict [("detail", VStr d)])
  | inl (Exc _ _) => Response 500 (VStr (lit "Internal Server Error"))
  end.

Definition serve {G} {RS : RandomSource G} (env : Env) (rq : request)
    (w : world G) : response * world G :=
  let (r, w') := route env rq w in (respond r, w').

(** Reading a response. *)
Definition result_field (k : string) (v : value) : option value :=
  match field "result" v with
  | Some r => field k r
  | None => None
  end.

Definition result_keys (v : value) : list string :=
  match field "result" v with
  | Some (VDict d) => keys d
  | _ => []
  end.

Definition flag (k : string) (r : value) : option value :=
  match field "flags" r with
  | Some f => field k f
  | None => None
  end.

Definition detail (k : string) (r : value) : option value :=
  match field "details" r with
  | Some f => field k f
  | None => None
  end.

(** ** Binary64

    [random.uniform(a, b)] as CPython computes it, [a + (b - a) * random()]
    with each operation rounded to binary64. A value is written as an
    integer over a power of two: [a] and [b] over [2^54], the draw [k] over
    [2^53] (what [random()] returns is [k / 2^53] with [0 <= k < 2^53]),
    the result over [2^107]. Rounding to 53 significant bits does not
    depend on that power, and no value here leaves the normal range. *)

Module Binary64.

(** The multiple of [q] nearest to [x], the even one of two at equal
    distance. *)
Definition nearest_even (q x : Z) : Z :=
  let n := x / q in
  let r := x mod q in
  (if 2 * r <? q then n
   else if q <? 2 * r then n + 1
   else if Z.even n then n else n + 1) * q.

(** Round to 53 significant bits, half to even. *)
Definition round53 (x : Z) : Z :=
  if Z.log2 x <=? 52 then x
  else nearest_even (2 ^ (Z.log2 x - 52)) x.

Definition uniform64 (a b k : Z) : Z :=
  round53 (a * 2 ^ 53 + round53 (round53 (b - a) * k)).

(** The literals [0.3], [0.5] and [0.9] as binary64, over [2^54]. *)
Definition f03 : Z := 5404319552844595.
Definition f05 : Z := 9007199254740992.
Definition f09 : Z := 16212958658533786.

(** The same on the floats of the kernel, to compare with. *)
Definition py_uniform (a b r : float) : float := (a + (b - a) * r)%float.

(** A float that is not negative as an integer over [2^s], when it is
    one. *)
Definition scaled (s : Z) (x : float) : option Z :=
  match Prim2SF x with
  | S754_zero _ => Some 0
  | S754_finite false m e =>
      if 0 <=? e + s then Some (Zpos m * 2 ^ (e + s))
      else if Zpos m mod 2 ^ (- (e + s)) =? 0
           then Some (Zpos m / 2 ^ (- (e + s)))
           else None
  | _ => None
  end.

End Binary64.

(** ** A scripted random source and stand-in libraries

    For running the handlers on concrete requests: the draws are read off
    a script, as a test would do with a fixed random source. *)

Module Scripted.

(** A script is the list of raw draws to come; each is reduced to the
    range asked for, [random()] being a 53-bit integer over [2^53]. *)
Definition script := list N.

Definition two53 : positive := 9007199254740992.

Definition next_random (g : script) : Q * script :=
  match g with
  | [] => (0%Q, [])
  | x :: g' => (Z.of_N (x mod Npos two53) # two53, g')
  end.

Definition next_below (n : N) (g : script) : N * script :=
  match g with
  | [] => (0%N, [])
  | x :: g' => ((x mod n)%N, g')
  end.

Lemma next_random_range (g : script) :
  (0 <= fst (next_random g))%Q /\ (fst (next_random g) < 1)%Q.
Proof.
  destruct g as [|x g']; cbn [next_random fst].
  - split; [apply Qle_refl | reflexivity].
  - assert (Hlt : (x mod Npos two53 < Npos two53)%N)
      by (apply N.mod_upper_bound; discriminate).
    unfold Qle, Qlt; cbn [Qnum Qden].
    split; [rewrite Z.mul_0_l, Z.mul_1_r; apply N2Z.is_nonneg|].
    rewrite Z.mul_1_r, Z.mul_1_l.
    change (Zpos two53) with (Z.of_N (Npos two53)).
    apply N2Z.inj_lt, Hlt.
Qed.

Lemma next_below_range (n : N) (g : script) :
  (0 < n)%N -> (fst (next_below n g) < n)%N.
Proof.
  intros Hn. destruct g as [|x g']; cbn [next_below fst].
  - exact Hn.
  - apply N.mod_upper_bound. lia.
Qed.

#[export] Instance source : RandomSource script := {|
  random := next_random;
  randbelow := next_below;
  random_range := next_random_range;
  randbelow_range := next_below_range
|}.

(** The state a run starts from. *)
Definition start (g : script) : world script := World g O [].

(** [k / 2^53] as a raw draw, rounded down: [draw 1 2] is the draw 0.5. *)
Definition draw (num den : N) : N := (num * Npos two53 / den)%N.

End Scripted.

Module Fixtures.

(** A classifier that answers every text the same way. *)
Definition positive : classifier :=
  fun _ => inr [Prediction (lit "POSITIVE") 0.9998].

(** A classifier whose answer shows the text it was given: the label is
    the length of its argument. *)
Definition measuring : classifier :=
  fun s => inr [Prediction (str_of_int (Z.of_nat (List.length s))) 0.75].

(** A classifier that fails at inference. *)
Definition failing : classifier :=
  fun _ => inl (Exc RuntimeError (lit "CUDA out of memory")).

Definition pipeline_of (c : classifier) : pipeline := fun _ _ => inr c.

(** A factory that cannot load its model. *)
Definition no_model : pipeline :=
  fun _ _ => inl (Exc OSError (lit "Can't load the model")).

Definition be32 (a b c d : byte) : Z :=
  Z.of_N (((Byte.to_N a * 256 + Byte.to_N b) * 256 + Byte.to_N c) * 256
          + Byte.to_N d).

Definition png_signature : list N := [137; 80; 78; 71; 13; 10; 26; 10]%N.

(** A stand-in for [Image.open], which reads the header of the file and
    no pixel: the size in the [IHDR] chunk of a PNG file,
    [UnidentifiedImageError] for anything else. *)
Definition open_png (b : list byte) : exn + image :=
  if list_eq_dec N.eq_dec (map Byte.to_N (firstn 8 b)) png_signature then
    match skipn 16 b with
    | w3 :: w2 :: w1 :: w0 :: h3 :: h2 :: h1 :: h0 :: _ =>
        inr (Image (be32 w3 w2 w1 w0, be32 h3 h2 h1 h0))
    | _ => inl (Exc UnidentifiedImageError (lit "cannot identify image file"))
    end
  else inl (Exc UnidentifiedImageError (lit "cannot identify image file")).

(** A PNG file of 10 by 20 pixels, all black. *)
Definition png_10x20 : list byte :=
  [x89; x50; x4e; x47; x0d; x0a; x1a; x0a;
   x00; x00; x00; x0d; x49; x48; x44; x52;
   x00; x00; x00; x0a; x00; x00; x00; x14;
   x08; x00; x00; x00; x00; x91; x85; xf3;
   x8a; x00; x00; x00; x0c; x49; x44; x41;
   x54; x78; xda; x63; x60; x18; xbe; x00;
   x00; x00; xdc; x00; x01; xcf; x39; x7d;
   x4c; x00; x00; x00; x00; x49; x45; x4e;
   x44; xae; x42; x60; x82]%byte.

(** [transformers] not installed. *)
Definition not_installed : Env := {|
  transformers_import :=
    inl (Exc ModuleNotFoundError (lit "No module named 'transformers'"));
  Image_open := open_png
|}.


Definition installed (p : pipeline) : Env := {|
  transformers_import := inr p;
  Image_open := open_png
|}.

End Fixtures.

(** ** The words of the specification *)

(** "Whitespace-separated tokens": [Tokens s toks] reads [s] as leading
    whitespace, then each token of [toks] in turn, a token being a run of
    characters with no whitespace in it, not empty, that goes on until the
    next whitespace or the end of [s]. *)
Definition blank (s : str) : Prop := forallb isspace s = true.

Definition solid (s : str) : Prop :=
  s <> [] /\ forallb (fun c => negb (isspace c)) s = true.

Definition at_boundary (s : str) : Prop :=
  match s with
  | [] => True
  | c :: _ => isspace c = true
  end.

Inductive Tokens : str -> list str -> Prop :=
| Tokens_none (ws : str) :
    blank ws -> Tokens ws []
| Tokens_next (ws t rest : str) (toks : list str) :
    blank ws -> solid t -> at_boundary rest -> Tokens rest toks ->
    Tokens (ws ++ t ++ rest) (t :: toks).

(** The dict literal of [mock_analysis], given its three draws. *)
Definition mock_literal (content_type : str) (input_text : option str)
    (mock_score : Q) (biasDetected manipulatedContent : bool) : value :=
  VDict [
    ("type", VStr content_type);
    ("credibilityScore", VFloat mock_score);
    ("analysis", VStr (lit "Analysis complete. Content scored "
                       ++ format_2f mock_score ++ lit " for credibility."));
    ("flags", VDict [
      ("potentialMisinformation", VBool (Qltb mock_score 0.6));
      ("needsFactChecking", VBool (Qltb mock_score 0.6));
      ("biasDetected", VBool biasDetected);
      ("manipulatedContent", VBool manipulatedContent)]);
    ("sources", VList [VStr (lit "Memory-Optimized Analysis")]);
    ("details", VDict [
      ("sentiment", VStr (lit "N/A"));
      ("confidence", VFloat mock_score);
      ("keyTerms", VList (map VStr
         (if truthy input_text then slice_to 5 (split (py_str input_text))
          else [])))])
  ].

(** The dict literal of the inference path of [analyze_text]. *)
Definition text_literal (p : prediction) : value :=
  VDict [
    ("type", VStr (lit "text"));
    ("credibilityScore", VFloat (score p));
    ("analysis", VStr (lit "Text sentiment: " ++ label p));
    ("simplified", VBool true)
  ].

(** The import of [transformers] does not fail, or fails with an
    [ImportError]. *)
Definition import_settled (env : Env) : Prop :=
  match transformers_import env with
  | inr _ => True
  | inl e => catches_ImportError e = true
  end.

(** The fallback of [analyze_text]: the mock scorer on the whole text. *)
Definition fallback {G} {RS : RandomSource G} (request : TextAnalysisRequest)
    : M G value :=
  r <- mock_analysis (lit "text") (Some (text request)) ;;
  ret (result_of r).

(** The state once a classifier was made in [w] and [es] was done to it. *)
Definition logged {G} (w : world G) (es : list event) : world G :=
  World (rng w) (S (next_handle w)) (log w ++ es).

(** What the inference path of [analyze_text] comes to for a request: the
    first prediction of the classifier on the truncated text, or the
    failure that sends the handler to its fallback. *)
Definition inference (env : Env) (request : TextAnalysisRequest)
    : exn + prediction :=
  match transformers_import env with
  | inl e => inl e
  | inr p =>
      match p (lit "sentiment-analysis") model_name with
      | inl e => inl e
      | inr c =>
          match c (firstn 512 (text request)) with
          | inl e => inl e
          | inr [] => inl (Exc IndexError (lit "list index out of range"))
          | inr (pr :: _) => inr pr
          end
      end
  end.

(** * Properties *)

(** ** [str.split] *)

Section Split.

Lemma split_from_space (cur : str) (c : char) (s : str) :
  isspace c = true -> split_from cur (c :: s) = flush cur (split s).
Proof. intros Hc. cbn [split_from]. now rewrite Hc. Qed.

Lemma split_from_solid (cur : str) (c : char) (s : str) :
  isspace c = false -> split_from cur (c :: s) = split_from (c :: cur) s.
Proof. intros Hc. cbn [split_from]. now rewrite Hc. Qed.

Lemma split_blank (ws s : str) : blank ws -> split (ws ++ s) = split s.
Proof.
  unfold blank. induction ws as [|c ws IH]; cbn [forallb app]; intros H.
  - reflexivity.
  - apply andb_true_iff in H as [Hc Hws].
    unfold split at 1. rewrite split_from_space by exact Hc.
    cbn [flush]. now apply IH.
Qed.

Lemma split_from_run (t rest cur : str) :
  forallb (fun c => negb (isspace c)) t = true -> at_boundary rest ->
  split_from cur (t ++ rest) = flush (rev t ++ cur) (split rest).
Proof.
  revert cur. induction t as [|a t IH]; cbn [forallb app rev]; intros cur Ht Hb.
  - destruct rest as [|c r]; cbn [at_boundary] in Hb.
    + reflexivity.
    + rewrite split_from_space by exact Hb.
      unfold split at 2. rewrite split_from_space by exact Hb.
      reflexivity.
  - apply andb_true_iff in Ht as [Ha Ht].
    apply negb_true_iff in Ha.
    rewrite split_from_solid by exact Ha.
    rewrite IH by assumption.
    now rewrite <- app_assoc.
Qed.

Lemma flush_solid (t : str) (l : list str) :
  t <> [] -> flush (rev t ++ []) l = t :: l.
Proof.
  intros Ht. rewrite app_nil_r.
  destruct (rev t) as [|x r] eqn:E.
  - apply (f_equal (@rev char)) in E. rewrite rev_involutive in E.
    now destruct Ht.
  - cbn [flush]. now rewrite <- E, rev_involutive.
Qed.

(** [split] is the only reading of a string as tokens. *)
Lemma Tokens_split (s : str) (toks : list str) :
  Tokens s toks -> toks = split s.
Proof.
  induction 1 as [ws Hws | ws t rest toks Hws [Hne Ht] Hb _ IH].
  - rewrite <- (app_nil_r ws). now rewrite split_blank.
  - rewrite split_blank by exact Hws.
    unfold split at 1. rewrite split_from_run by assumption.
    rewrite flush_solid by exact Hne. now rewrite IH.
Qed.

Lemma Tokens_exist (s : str) : exists toks, Tokens s toks.
Proof.
  induction s as [|c s [toks IH]].
  - exists []. now constructor.
  - destruct (isspace c) eqn:Hc.
    + inversion IH as [ws Hws | ws t rest toks' Hws Ht Hb Hrest]; subst.
      * exists []. constructor. unfold blank in *. cbn. now rewrite Hc.
      * exists (t :: toks').
        change (c :: ws ++ t ++ rest) with ((c :: ws) ++ t ++ rest).
        constructor; try assumption.
        unfold blank in *. cbn. now rewrite Hc.
    + assert (Hsolid : solid [c]).
      { split; [discriminate|]. cbn. now rewrite Hc. }
      inversion IH as [ws Hws | ws t rest toks' Hws Ht Hb Hrest]; subst.
      * exists [[c]].
        change (c :: s) with ([] ++ [c] ++ s).
        constructor; try assumption; try reflexivity.
        destruct s as [|d s']; cbn; [exact I|].
        unfold blank in Hws. cbn in Hws.
        now apply andb_true_iff in Hws as [Hd _].
      * destruct ws as [|d ws'].
        -- exists ((c :: t) :: toks').
           change (c :: [] ++ t ++ rest) with ([] ++ (c :: t) ++ rest).
           constructor; try assumption; try reflexivity.
           destruct Ht as [_ Ht]. split; [discriminate|].
           cbn. now rewrite Hc, Ht.
        -- exists ([c] :: t :: toks').
           change (c :: (d :: ws') ++ t ++ rest)
             with ([] ++ [c] ++ ((d :: ws') ++ t ++ rest)).
           constructor; try assumption; try reflexivity.
           unfold blank in Hws. cbn in Hws.
           now apply andb_true_iff in Hws as [Hd _].
Qed.

(** [s.split()] is the list of the whitespace-separated tokens of [s]. *)
Lemma split_Tokens (s : str) : Tokens s (split s).
Proof.
  destruct (Tokens_exist s) as [toks H].
  now rewrite <- (Tokens_split s toks H).
Qed.

End Split.

(** ** Running the handlers *)

Section Steps.

Context {G : Type} {RS : RandomSource G}.

Lemma uniform_run (a b : Q) (w : world G) :
  uniform a b w
  = (inr (a + (b - a) * fst (random (rng w)))%Q,
     World (snd (random (rng w))) (next_handle w) (log w)).
Proof.
  unfold uniform, bind, random_random, ret.
  now destruct (random (rng w)).
Qed.

Lemma choice_flag_run (w : world G) :
  exists b,
    choice [true; false] w
    = (inr b, World (snd (randbelow 2 (rng w))) (next_handle w) (log w)).
Proof.
  unfold choice, bind, random_randbelow. cbn [List.length N.of_nat].
  change (N.pos (Pos.of_succ_nat 1)) with 2%N.
  pose proof (randbelow_range 2 (rng w) eq_refl) as Hlt.
  destruct (randbelow 2 (rng w)) as [i g]. cbn [fst snd] in *.
  assert (Hi : i = 0%N \/ i = 1%N) by lia.
  destruct Hi as [-> | ->]; eexists; reflexivity.
Qed.

(** [mock_analysis] returns its dict literal, whatever it is given: it
    takes three draws and leaves the log as it was. *)
Lemma mock_analysis_run (content_type : str) (input_text : option str)
    (w : world G) :
  exists b1 b2 g,
    mock_analysis content_type input_text w
    = (inr (mock_literal content_type input_text
              (0.3 + (0.9 - 0.3) * fst (random (rng w)))%Q b1 b2),
       World g (next_handle w) (log w)).
Proof.
  unfold mock_analysis, bind at 1. rewrite uniform_run.
  set (w1 := World _ _ _).
  destruct (choice_flag_run w1) as [b1 H1].
  unfold bind at 1. rewrite H1.
  set (w2 := World _ _ _).
  destruct (choice_flag_run w2) as [b2 H2].
  unfold bind at 1. rewrite H2.
  exists b1, b2. eexists. reflexivity.
Qed.

Lemma uniform_03_09 (r : Q) :
  (0 <= r)%Q -> (r < 1)%Q ->
  (0.3 <= 0.3 + (0.9 - 0.3) * r)%Q /\ (0.3 + (0.9 - 0.3) * r < 0.9)%Q.
Proof. intros H0 H1. split; lra. Qed.

Lemma uniform_05_09 (r : Q) :
  (0 <= r)%Q -> (r < 1)%Q ->
  (0.5 <= 0.5 + (0.9 - 0.5) * r)%Q /\ (0.5 + (0.9 - 0.5) * r <= 0.9)%Q.
Proof. intros H0 H1. split; lra. Qed.

Lemma Qltb_lt (x y : Q) : Qltb x y = true <-> (x < y)%Q.
Proof.
  unfold Qltb. rewrite negb_true_iff.
  split.
  - intros H. apply Qnot_le_lt. intros Hle.
    apply Qle_bool_iff in Hle. congruence.
  - intros H. destruct (Qle_bool y x) eqn:E; [|reflexivity].
    apply Qle_bool_iff in E. exfalso. exact (Qlt_not_le _ _ H E).
Qed.

End Steps.

(** ** The bounds of [random.uniform] in binary64 *)

Section Binary64Bounds.

Import Binary64.

Lemma nearest_even_bounds (q x : Z) :
  0 < q -> x / q * q <= nearest_even q x <= (x / q + 1) * q.
Proof.
  intros Hq. unfold nearest_even.
  destruct (2 * (x mod q) <? q); [nia|].
  destruct (q <? 2 * (x mod q)); [nia|].
  destruct (Z.even (x / q)); nia.
Qed.

Lemma nearest_even_mono (q x y : Z) :
  0 < q -> x <= y -> nearest_even q x <= nearest_even q y.
Proof.
  intros Hq Hxy.
  pose proof (Z.div_le_mono x y q Hq Hxy) as Hn.
  destruct (Z.eq_dec (x / q) (y / q)) as [E|E].
  - unfold nearest_even. rewrite <- E.
    apply Z.mul_le_mono_nonneg_r; [lia|].
    assert (Hr : x mod q <= y mod q).
    { rewrite (Z.mod_eq x q), (Z.mod_eq y q) by lia. rewrite <- E. lia. }
    destruct (2 * (x mod q) <? q) eqn:A1; destruct (2 * (y mod q) <? q) eqn:B1;
    destruct (q <? 2 * (x mod q)) eqn:A2; destruct (q <? 2 * (y mod q)) eqn:B2;
    destruct (Z.even (x / q)); lia.
  - pose proof (nearest_even_bounds q x Hq) as [_ Hx].
    pose proof (nearest_even_bounds q y Hq) as [Hy _].
    assert (x / q + 1 <= y / q) by lia.
    nia.
Qed.

Lemma round53_bounds (x : Z) :
  52 < Z.log2 x -> 2 ^ Z.log2 x <= round53 x <= 2 ^ (Z.log2 x + 1).
Proof.
  intros Hl. unfold round53.
  destruct (Z.leb_spec (Z.log2 x) 52) as [|_]; [lia|].
  assert (Hx : 0 < x).
  { destruct (Z.lt_ge_cases 0 x) as [|H0]; [assumption|].
    rewrite (Z.log2_nonpos x) in Hl by lia. lia. }
  destruct (Z.log2_spec x Hx) as [Hlo Hhi].
  set (l := Z.log2 x) in *. set (q := 2 ^ (l - 52)).
  assert (Hq : 0 < q) by (apply Z.pow_pos_nonneg; lia).
  assert (Hl52 : 2 ^ l = 2 ^ 52 * q).
  { unfold q. rewrite <- Z.pow_add_r by lia. f_equal. lia. }
  assert (Hl53 : 2 ^ (Z.succ l) = 2 ^ 53 * q).
  { unfold q. rewrite <- Z.pow_add_r by lia. f_equal. lia. }
  replace (l + 1) with (Z.succ l) by lia.
  assert (Hn0 : 2 ^ 52 <= x / q).
  { apply Z.div_le_lower_bound; lia. }
  assert (Hn1 : x / q < 2 ^ 53).
  { apply Z.div_lt_upper_bound; lia. }
  pose proof (nearest_even_bounds q x Hq) as [Hb0 Hb1].
  rewrite Hl52, Hl53. split; nia.
Qed.

Lemma round53_mono (x y : Z) : 0 <= x -> x <= y -> round53 x <= round53 y.
Proof.
  intros Hx Hxy.
  pose proof (Z.log2_le_mono x y Hxy) as Hl.
  destruct (Z.le_gt_cases (Z.log2 y) 52) as [Hy|Hy].
  - unfold round53.
    destruct (Z.leb_spec (Z.log2 x) 52); [|lia].
    destruct (Z.leb_spec (Z.log2 y) 52); [|lia]. exact Hxy.
  - destruct (Z.le_gt_cases (Z.log2 x) 52) as [Hx52|Hx52].
    + pose proof (round53_bounds y Hy) as [Hy0 _].
      unfold round53 at 1.
      destruct (Z.leb_spec (Z.log2 x) 52); [|lia].
      assert (Hpow : 2 ^ Z.log2 x <= 2 ^ Z.log2 y)
        by (apply Z.pow_le_mono_r; [lia | exact Hl]).
      destruct (Z.eq_dec x 0) as [->|Hne].
      * pose proof (Z.pow_pos_nonneg 2 (Z.log2 y)). lia.
      * destruct (Z.log2_spec x) as [_ Hhi]; [lia|].
        assert (2 ^ Z.succ (Z.log2 x) <= 2 ^ Z.log2 y)
          by (apply Z.pow_le_mono_r; lia).
        lia.
    + destruct (Z.eq_dec (Z.log2 x) (Z.log2 y)) as [E|E].
      * unfold round53. rewrite E.
        destruct (Z.leb_spec (Z.log2 y) 52); [lia|].
        apply nearest_even_mono; [apply Z.pow_pos_nonneg; lia | exact Hxy].
      * pose proof (round53_bounds x Hx52) as [_ Hx1].
        pose proof (round53_bounds y Hy) as [Hy0 _].
        assert (2 ^ (Z.log2 x + 1) <= 2 ^ Z.log2 y)
          by (apply Z.pow_le_mono_r; lia).
        lia.
Qed.

Lemma uniform64_mono (a b k k' : Z) :
  0 <= a -> a <= b -> 0 <= k -> k <= k' ->
  uniform64 a b k <= uniform64 a b k'.
Proof.
  intros Ha Hab Hk Hkk'. unfold uniform64.
  assert (Hc : 0 <= round53 (b - a)).
  { change 0 with (round53 0). apply round53_mono; lia. }
  assert (Hp : 0 <= round53 (round53 (b - a) * k)).
  { change 0 with (round53 0) at 1. apply round53_mono; nia. }
  apply round53_mono; [nia|].
  apply Z.add_le_mono_l. apply round53_mono; nia.
Qed.

(** Whatever [random()] returns, the binary64 [uniform(0.3, 0.9)] is at
    least the float [0.3] and below the float [0.9]. *)
Theorem uniform64_03_09 (k : Z) :
  0 <= k < 2 ^ 53 ->
  f03 * 2 ^ 53 <= uniform64 f03 f09 k < f09 * 2 ^ 53.
Proof.
  intros [Hk0 Hk1].
  assert (H0 : uniform64 f03 f09 0 <= uniform64 f03 f09 k)
    by (apply uniform64_mono; unfold f03, f09; lia).
  assert (H1 : uniform64 f03 f09 k <= uniform64 f03 f09 (2 ^ 53 - 1))
    by (apply uniform64_mono; unfold f03, f09; lia).
  assert (E0 : uniform64 f03 f09 0 = f03 * 2 ^ 53) by (vm_compute; reflexivity).
  assert (E1 : uniform64 f03 f09 (2 ^ 53 - 1) < f09 * 2 ^ 53) by (vm_compute; reflexivity).
  lia.
Qed.

(** Whatever [random()] returns, the binary64 [uniform(0.5, 0.9)] is at
    least [0.5] and at most the float [0.9]. *)
Theorem uniform64_05_09 (k : Z) :
  0 <= k < 2 ^ 53 ->
  f05 * 2 ^ 53 <= uniform64 f05 f09 k <= f09 * 2 ^ 53.
Proof.
  intros [Hk0 Hk1].
  assert (H0 : uniform64 f05 f09 0 <= uniform64 f05 f09 k)
    by (apply uniform64_mono; unfold f05, f09; lia).
  assert (H1 : uniform64 f05 f09 k <= uniform64 f05 f09 (2 ^ 53 - 1))
    by (apply uniform64_mono; unfold f05, f09; lia).
  assert (E0 : uniform64 f05 f09 0 = f05 * 2 ^ 53) by (vm_compute; reflexivity).
  assert (E1 : uniform64 f05 f09 (2 ^ 53 - 1) < f09 * 2 ^ 53) by (vm_compute; reflexivity).
  lia.
Qed.

#[local] Set Warnings "-inexact-float".

(** [round53] against the floats of the kernel: the three literals, and
    [uniform(0.3, 0.9)] and [uniform(0.5, 0.9)] at the smallest draws, at
    one half, and at the largest draw [1 - 2^-53]. *)
Example binary64_literals :
  scaled 54 0.3 = Some f03 /\ scaled 54 0.5 = Some f05
  /\ scaled 54 0.9 = Some f09.
Proof. vm_compute. repeat split. Qed.

Example binary64_draws :
  scaled 53 0 = Some 0 /\ scaled 53 0x1p-53 = Some 1
  /\ scaled 53 0.5 = Some (2 ^ 52)
  /\ scaled 53 0x1.fffffffffffffp-1 = Some (2 ^ 53 - 1).
Proof. vm_compute. repeat split. Qed.

Example binary64_uniform_03_09 :
  scaled 107 (py_uniform 0.3 0.9 0) = Some (uniform64 f03 f09 0)
  /\ scaled 107 (py_uniform 0.3 0.9 0x1p-53) = Some (uniform64 f03 f09 1)
  /\ scaled 107 (py_uniform 0.3 0.9 0.5) = Some (uniform64 f03 f09 (2 ^ 52))
  /\ scaled 107 (py_uniform 0.3 0.9 0x1.fffffffffffffp-1)
     = Some (uniform64 f03 f09 (2 ^ 53 - 1))
  /\ (py_uniform 0.3 0.9 0x1.fffffffffffffp-1 <? 0.9)%float = true.
Proof. vm_compute. repeat split. Qed.

Example binary64_uniform_05_09 :
  scaled 107 (py_uniform 0.5 0.9 0) = Some (uniform64 f05 f09 0)
  /\ scaled 107 (py_uniform 0.5 0.9 0x1p-53) = Some (uniform64 f05 f09 1)
  /\ scaled 107 (py_uniform 0.5 0.9 0.5) = Some (uniform64 f05 f09 (2 ^ 52))
  /\ scaled 107 (py_uniform 0.5 0.9 0x1.fffffffffffffp-1)
     = Some (uniform64 f05 f09 (2 ^ 53 - 1))
  /\ (py_uniform 0.5 0.9 0x1.fffffffffffffp-1 <=? 0.9)%float = true.
Proof. vm_compute. repeat split. Qed.

End Binary64Bounds.

(** ** [analyze_text], path by path *)

Section TextPaths.

Context {G : Type} {RS : RandomSource G}.
Variable env : Env.

Lemma import_transformers_run (w : world G) :
  import_transformers env w
  = match transformers_import env with
    | inr p => (inr (Some p), w)
    | inl e => if catches_ImportError e then (inr None, w) else (inl e, w)
    end.
Proof.
  unfold import_transformers, try_except, bind, call, ret.
  destruct (transformers_import env) as [e|p]; [|reflexivity].
  now destruct (catches_ImportError e).
Qed.

Lemma analyze_text_cases (request : TextAnalysisRequest) (w : world G) :
  let h := next_handle w in
  let arg := firstn 512 (text request) in
  analyze_text env request w
  = match transformers_import env with
    | inl e =>
        if catches_ImportError e then fallback request w else (inl e, w)
    | inr p =>
        match p (lit "sentiment-analysis") model_name with
        | inl _ => fallback request w
        | inr c =>
            match c arg with
            | inl _ => fallback request (logged w [Load h; Call h arg])
            | inr [] =>
                fallback request
                  (logged w [Load h; Call h arg; Del h; GcCollect])
            | inr (pr :: _) =>
                (inr (result_of (text_literal pr)),
                 logged w [Load h; Call h arg; Del h; GcCollect])
            end
        end
    end.
Proof.
  intros h arg. unfold analyze_text, bind at 1.
  rewrite import_transformers_run.
  destruct (transformers_import env) as [e|p].
  - destruct (catches_ImportError e); reflexivity.
  - unfold try_except, bind at 1, make_classifier.
    destruct (p (lit "sentiment-analysis") model_name) as [e|c]; [reflexivity|].
    unfold bind at 1, invoke, bind at 1, emit, call.
    cbn [fst snd rng next_handle log]. unfold slice_to. fold arg. fold h.
    unfold logged.
    destruct (c arg) as [e|[|pr rest]];
      cbn [bind item0 raise ret Exception rng next_handle log];
      unfold bind; cbn [rng next_handle log];
      repeat rewrite <- app_assoc; reflexivity.
Qed.

(** The fallback always answers, with the literal of the mock scorer. *)
Lemma fallback_run (request : TextAnalysisRequest) (w : world G) :
  exists r w',
    fallback request w = (inr (result_of r), w')
    /\ mock_analysis (lit "text") (Some (text request)) w = (inr r, w')
    /\ next_handle w' = next_handle w /\ log w' = log w.
Proof.
  destruct (mock_analysis_run (lit "text") (Some (text request)) w)
    as (b1 & b2 & g & H).
  unfold fallback, bind. rewrite H.
  do 2 eexists. repeat split; reflexivity.
Qed.

End TextPaths.

(** ** The mock scorer *)

Section Endpoints.

Context {G : Type} {RS : RandomSource G}.

(** C5. For every content type and input, [mock_analysis] returns a
    result whose score lies in the half-open interval [0.3, 0.9) and whose
    [keyTerms] are the first 5 whitespace-separated tokens of the input
    (none if the input is empty or [None]), so at most 5 of them. *)
Theorem mock_analysis_score_and_keyTerms
    (content_type : str) (input_text : option str) (w : world G) :
  exists r w' s terms,
    mock_analysis content_type input_text w = (inr r, w')
    /\ field "credibilityScore" r = Some (VFloat s)
    /\ (0.3 <= s)%Q /\ (s < 0.9)%Q
    /\ detail "keyTerms" r = Some (VList (map VStr terms))
    /\ match input_text with
       | Some txt => exists toks, Tokens txt toks /\ terms = firstn 5 toks
       | None => terms = []
       end
    /\ (truthy input_text = false -> terms = [])
    /\ (List.length terms <= 5)%nat.
Proof.
  destruct (mock_analysis_run content_type input_text w)
    as (b1 & b2 & g & Hrun).
  destruct (random_range (rng w)) as [Hlo Hhi].
  destruct (uniform_03_09 _ Hlo Hhi) as [Hs0 Hs1].
  eexists _, _, _, _. split; [exact Hrun|].
  split; [reflexivity|]. split; [exact Hs0|]. split; [exact Hs1|].
  split; [reflexivity|].
  split; [|split].
  - destruct input_text as [[|c s]|]; cbn [truthy py_str].
    + exists []. split; [now constructor | reflexivity].
    + exists (split (c :: s)). split; [apply split_Tokens | reflexivity].
    + reflexivity.
  - now intros ->.
  - destruct (truthy input_text); [apply firstn_le_length | cbn; lia].
Qed.

(** ** [POST /analyze/url] *)

(** C4. For every url, [POST /analyze/url] answers 200 with the result of
    the mock scorer for type "url"; in it [potentialMisinformation] and
    [needsFactChecking] are the same boolean, which is true exactly when
    the credibility score is below 0.6. *)
Theorem analyze_url_mock_result
    (env : Env) (request : UrlAnalysisRequest) (w : world G) :
  exists r w' s b,
    serve env (POST_analyze_url request) w
    = (Response 200 (result_of r), w')
    /\ mock_analysis (lit "url") (Some (url request)) w = (inr r, w')
    /\ field "type" r = Some (VStr (lit "url"))
    /\ field "credibilityScore" r = Some (VFloat s)
    /\ flag "potentialMisinformation" r = Some (VBool b)
    /\ flag "needsFactChecking" r = Some (VBool b)
    /\ (b = true <-> (s < 0.6)%Q).
Proof.
  destruct (mock_analysis_run (lit "url") (Some (url request)) w)
    as (b1 & b2 & g & Hrun).
  eexists _, _, _, _.
  split.
  { unfold serve, route, analyze_url, bind. now rewrite Hrun. }
  split; [exact Hrun|].
  repeat (split; [reflexivity|]).
  apply Qltb_lt.
Qed.

(** ** [POST /analyze/video] *)

(** C8. Whatever comes with the request, also nothing, [POST
    /analyze/video] raises the HTTP error 501 with the fixed detail "Video
    analysis not implemented": the answer is never a 200, and the handler
    changes nothing. *)
Theorem analyze_video_not_implemented
    (env : Env) (body : option (list byte)) (w : world G) :
  route env (POST_analyze_video body) w
  = (inl (HTTPException 501 (lit "Video analysis not implemented")), w)
  /\ serve env (POST_analyze_video body) w
     = (Response 501
          (VDict [("detail", VStr (lit "Video analysis not implemented"))]),
        w)
  /\ status_code_of (fst (serve env (POST_analyze_video body) w)) <> 200.
Proof.
  repeat split. cbn. discriminate.
Qed.

(** ** [POST /analyze/image] *)

(** C7. When the uploaded bytes do not decode as an image, [POST
    /analyze/image] answers with status 500, never with a result, and the
    detail of the error is "Image processing failed: " followed by the
    message of the decoding error. *)
Theorem analyze_image_decode_failure
    (env : Env) (file : UploadFile) (w : world G) (e : exn) :
  Image_open env (file_bytes file) = inl e ->
  analyze_image env file w
  = (inl (HTTPException 500
            (lit "Image processing failed: " ++ str_of_exn e)), w)
  /\ serve env (POST_analyze_image file) w
     = (Response 500
          (VDict [("detail",
                   VStr (lit "Image processing failed: " ++ str_of_exn e))]),
        w).
Proof.
  intros He.
  assert (H : analyze_image env file w
              = (inl (HTTPException 500
                        (lit "Image processing failed: " ++ str_of_exn e)),
                 w)).
  { unfold analyze_image, try_except, bind, call, ret.
    now rewrite He. }
  split; [exact H|].
  unfold serve, route. now rewrite H.
Qed.

(** C6. When the uploaded bytes decode as an image of [wd] by [ht]
    pixels, [POST /analyze/image] answers 200 with type "image", the
    analysis "Image processed: <wd>x<ht> pixels", and a score in
    [0.5, 0.9] that is the handler's own call of [uniform(0.5, 0.9)], one
    draw of the random source and no other. *)
Theorem analyze_image_valid
    (env : Env) (file : UploadFile) (w : world G) (wd ht : Z) :
  Image_open env (file_bytes file) = inr (Image (wd, ht)) ->
  exists s w',
    serve env (POST_analyze_image file) w
    = (Response 200
         (result_of (VDict [
            ("type", VStr (lit "image"));
            ("credibilityScore", VFloat s);
            ("analysis", VStr (lit "Image processed: " ++ str_of_int wd
                               ++ lit "x" ++ str_of_int ht ++ lit " pixels"));
            ("basic_analysis", VBool true)])),
       w')
    /\ uniform 0.5 0.9 w = (inr s, w')
    /\ rng w' = snd (random (rng w))
    /\ (0.5 <= s)%Q /\ (s <= 0.9)%Q.
Proof.
  intros Himg.
  destruct (random_range (rng w)) as [Hlo Hhi].
  destruct (uniform_05_09 _ Hlo Hhi) as [Hs0 Hs1].
  eexists _, _. split; [|split; [apply uniform_run|]].
  - unfold serve, route, analyze_image, try_except, bind at 1.
    unfold ret at 1. unfold bind at 1, call. rewrite Himg.
    unfold bind. rewrite uniform_run. reflexivity.
  - split; [reflexivity|]. split; assumption.
Qed.

End Endpoints.

(** ** [POST /analyze/text] *)

Section TextEndpoint.

Context {G : Type} {RS : RandomSource G}.

(** The inference path, when the import, the factory and the classifier
    all answer. *)
Lemma analyze_text_inference_run
    (env : Env) (request : TextAnalysisRequest) (w : world G)
    (p : pipeline) (c : classifier) (pr : prediction)
    (rest : list prediction) :
  transformers_import env = inr p ->
  p (lit "sentiment-analysis") model_name = inr c ->
  c (firstn 512 (text request)) = inr (pr :: rest) ->
  analyze_text env request w
  = (inr (result_of (text_literal pr)),
     logged w [Load (next_handle w);
               Call (next_handle w) (firstn 512 (text request));
               Del (next_handle w); GcCollect]).
Proof.
  intros Hp Hc Hr. rewrite analyze_text_cases. cbv zeta.
  now rewrite Hp, Hc, Hr.
Qed.

(** C3. When the import gives the pipeline factory, the factory a
    classifier, and the classifier answers, the classifier has been called
    on the first 512 characters of the text, and the handler returns
    exactly type "text", the score of the classifier as credibility score,
    the analysis "Text sentiment: <label>" and [simplified] true. *)
Theorem analyze_text_inference_result
    (env : Env) (request : TextAnalysisRequest) (w : world G)
    (p : pipeline) (c : classifier) (pr : prediction)
    (rest : list prediction) :
  transformers_import env = inr p ->
  p (lit "sentiment-analysis") model_name = inr c ->
  c (firstn 512 (text request)) = inr (pr :: rest) ->
  exists w',
    analyze_text env request w
    = (inr (VDict [("result", VDict [
              ("type", VStr (lit "text"));
              ("credibilityScore", VFloat (score pr));
              ("analysis", VStr (lit "Text sentiment: " ++ label pr));
              ("simplified", VBool true)])]),
       w')
    /\ log w'
       = log w ++ [Load (next_handle w);
                   Call (next_handle w) (firstn 512 (text request));
                   Del (next_handle w); GcCollect]
    /\ rng w' = rng w.
Proof.
  intros Hp Hc Hr.
  rewrite (analyze_text_inference_run env request w p c pr rest Hp Hc Hr).
  eexists. repeat split.
Qed.

(** C10. On the inference path the result has the four fields [type],
    [credibilityScore], [analysis] and [simplified] and no others: no
    [flags], no [sources], no [details], though every result of the mock
    scorer has these three. *)
Theorem analyze_text_inference_fields
    (env : Env) (request : TextAnalysisRequest) (w : world G)
    (p : pipeline) (c : classifier) (pr : prediction)
    (rest : list prediction) :
  transformers_import env = inr p ->
  p (lit "sentiment-analysis") model_name = inr c ->
  c (firstn 512 (text request)) = inr (pr :: rest) ->
  (exists v w',
     analyze_text env request w = (inr v, w')
     /\ result_keys v = ["type"; "credibilityScore"; "analysis"; "simplified"]
     /\ result_field "flags" v = None
     /\ result_field "sources" v = None
     /\ result_field "details" v = None)
  /\ (forall content_type input_text (w0 : world G),
        exists m w1 f s d,
          mock_analysis content_type input_text w0 = (inr m, w1)
          /\ field "flags" m = Some f
          /\ field "sources" m = Some s
          /\ field "details" m = Some d).
Proof.
  intros Hp Hc Hr. split.
  - rewrite (analyze_text_inference_run env request w p c pr rest Hp Hc Hr).
    eexists _, _. repeat split.
  - intros content_type input_text w0.
    destruct (mock_analysis_run content_type input_text w0)
      as (b1 & b2 & g & Hrun).
    rewrite Hrun. eexists _, _, _, _, _. repeat split.
Qed.



End TextEndpoint.

(** ** The classifier over a request *)

Section Release.

Context {G : Type} {RS : RandomSource G}.

(** What [analyze_text] does to classifiers in one request: nothing, or
    it loads one under a fresh handle, calls it once on the truncated
    text, and then either stops there or deletes it and collects. No
    handle of an earlier request is touched. *)
Lemma analyze_text_log
    (env : Env) (request : TextAnalysisRequest) (w : world G) :
  let h := next_handle w in
  let arg := firstn 512 (text request) in
  let w' := snd (analyze_text env request w) in
  (log w' = log w /\ next_handle w' = h)
  \/ (log w' = log w ++ [Load h; Call h arg] /\ next_handle w' = S h)
  \/ (log w' = log w ++ [Load h; Call h arg; Del h; GcCollect]
      /\ next_handle w' = S h).
Proof.
  intros h arg. rewrite analyze_text_cases. cbv zeta. fold h arg.
  assert (Hfb : forall w0 : world G,
            log (snd (fallback request w0)) = log w0
            /\ next_handle (snd (fallback request w0)) = next_handle w0).
  { intros w0. destruct (fallback_run request w0) as (r & w1 & Hf & _ & Hn & Hl).
    rewrite Hf. now split. }
  destruct (transformers_import env) as [e|p].
  - left. destruct (catches_ImportError e); [apply Hfb | now split].
  - destruct (p (lit "sentiment-analysis") model_name) as [e|c].
    + left. apply Hfb.
    + destruct (c arg) as [e|[|pr rest]].
      * right; left. apply Hfb.
      * right; right. apply Hfb.
      * right; right. now split.
Qed.

(** When the classifier raises, the handler falls back with the
    classifier loaded and called, and neither [del] nor [gc.collect()]
    run. *)
Lemma analyze_text_inference_error_log
    (env : Env) (request : TextAnalysisRequest) (w : world G)
    (p : pipeline) (c : classifier) (e : exn) :
  transformers_import env = inr p ->
  p (lit "sentiment-analysis") model_name = inr c ->
  c (firstn 512 (text request)) = inl e ->
  log (snd (analyze_text env request w))
  = log w ++ [Load (next_handle w);
              Call (next_handle w) (firstn 512 (text request))].
Proof.
  intros Hp Hc He. rewrite analyze_text_cases. cbv zeta.
  rewrite Hp, Hc, He.
  match goal with |- context [fallback request ?w1] =>
    destruct (fallback_run request w1) as (r & w' & Hf & _ & _ & Hl)
  end.
  now rewrite Hf.
Qed.

End Release.

(** ** The properties on concrete requests *)

Module Runs.

Import Scripted Fixtures.

Definition hello : TextAnalysisRequest := {| text := lit "hello" |}.

(** A text of 600 characters. *)
Definition long_text : TextAnalysisRequest := {| text := repeat 97%N 600 |}.

Definition not_an_image : UploadFile := {| file_bytes := [x00; x01]%byte |}.

Definition png : UploadFile := {| file_bytes := png_10x20 |}.

Definition headline : UrlAnalysisRequest :=
  {| url := lit "  breaking:  moon made   of cheese, experts say so " |}.

(** The mock scorer on a url, the draw at one quarter: the score is 0.45,
    both flags are raised, and the key terms are the first five words. *)
Example analyze_url_low_score :
  exists r w',
    analyze_url headline (start [draw 1 4; 0; 1]%N) = (inr (result_of r), w')
    /\ field "type" r = Some (VStr (lit "url"))
    /\ (exists s, field "credibilityScore" r = Some (VFloat s)
                  /\ (s == 0.45)%Q)
    /\ field "analysis" r
       = Some (VStr (lit "Analysis complete. Content scored 0.45 for credibility."))
    /\ flag "potentialMisinformation" r = Some (VBool true)
    /\ flag "needsFactChecking" r = Some (VBool true)
    /\ flag "biasDetected" r = Some (VBool true)
    /\ flag "manipulatedContent" r = Some (VBool false)
    /\ detail "keyTerms" r
       = Some (VList (map VStr [lit "breaking:"; lit "moon"; lit "made";
                                lit "of"; lit "cheese,"])).
Proof.
  eexists _, _. split; [vm_compute; reflexivity|].
  split; [reflexivity|].
  split; [eexists; split; [reflexivity | reflexivity]|].
  repeat split.
Qed.

(** The draw at one half: the score is 0.6, which is not below 0.6. *)
Example analyze_url_threshold :
  exists r w',
    analyze_url headline (start [draw 1 2; 1; 1]%N) = (inr (result_of r), w')
    /\ (exists s, field "credibilityScore" r = Some (VFloat s)
                  /\ (s == 0.6)%Q)
    /\ flag "potentialMisinformation" r = Some (VBool false)
    /\ flag "needsFactChecking" r = Some (VBool false).
Proof.
  eexists _, _. split; [vm_compute; reflexivity|].
  split; [eexists; split; [reflexivity | reflexivity]|].
  repeat split.
Qed.

(** The factory fails: the mock result, and no classifier was made. *)
Example analyze_text_no_model :
  exists r w',
    analyze_text (installed no_model) hello (start [draw 1 2; 0; 1]%N)
    = (inr (result_of r), w')
    /\ field "sources" r = Some (VList [VStr (lit "Memory-Optimized Analysis")])
    /\ log w' = [] /\ next_handle w' = 0%nat.
Proof.
  eexists _, _. split; [vm_compute; reflexivity|]. repeat split.
Qed.

(** No text: no key terms. *)
Example mock_analysis_no_input :
  exists r1 r2 w1 w2,
    mock_analysis (lit "text") (Some []) (start []) = (inr r1, w1)
    /\ mock_analysis (lit "text") None (start []) = (inr r2, w2)
    /\ detail "keyTerms" r1 = Some (VList [])
    /\ detail "keyTerms" r2 = Some (VList []).
Proof.
  eexists _, _, _, _. split; [vm_compute; reflexivity|].
  split; [vm_compute; reflexivity|]. split; reflexivity.
Qed.

(** C9, at a request whose classifier fails at inference: the handler
    answers with the mock result, having loaded and called classifier 0
    and released nothing, neither by [del] nor by [gc.collect()]. *)
Theorem analyze_text_failed_inference_not_released :
  let out := analyze_text (installed (pipeline_of failing)) hello
               (start [draw 1 2; 0; 1]%N) in
  (exists r, fst out = inr (result_of r))
  /\ log (snd out) = [Load 0%nat; Call 0%nat (lit "hello")]
  /\ ~ In (Del 0%nat) (log (snd out))
  /\ ~ In GcCollect (log (snd out)).
Proof.
  cbv zeta. split; [eexists; vm_compute; reflexivity|].
  split; [vm_compute; reflexivity|].
  split; vm_compute; intros [H|[H|[]]]; discriminate.
Qed.



Lemma analyze_text_inference_result_witness :
  transformers_import (installed (pipeline_of measuring))
  = inr (pipeline_of measuring)
  /\ pipeline_of measuring (lit "sentiment-analysis") model_name
     = inr measuring
  /\ measuring (firstn 512 (text long_text))
     = inr [Prediction (lit "512") 0.75]
  /\ exists w',
       analyze_text (installed (pipeline_of measuring)) long_text (start [])
       = (inr (VDict [("result", VDict [
                 ("type", VStr (lit "text"));
                 ("credibilityScore", VFloat 0.75);
                 ("analysis", VStr (lit "Text sentiment: 512"));
                 ("simplified", VBool true)])]),
          w')
       /\ log w'
          = [Load 0%nat; Call 0%nat (repeat 97%N 512); Del 0%nat; GcCollect]
       /\ rng w' = [].
Proof.
  split; [reflexivity|]. split; [reflexivity|]. split; [reflexivity|].
  exact (analyze_text_inference_result
           (installed (pipeline_of measuring)) long_text (start [])
           (pipeline_of measuring) measuring
           (Prediction (lit "512") 0.75) [] eq_refl eq_refl eq_refl).
Defined.

Lemma analyze_text_inference_fields_witness :
  transformers_import (installed (pipeline_of positive))
  = inr (pipeline_of positive)
  /\ pipeline_of positive (lit "sentiment-analysis") model_name = inr positive
  /\ positive (firstn 512 (text hello))
     = inr [Prediction (lit "POSITIVE") 0.9998]
  /\ exists v w',
       analyze_text (installed (pipeline_of positive)) hello (start [])
       = (inr v, w')
       /\ result_keys v
          = ["type"; "credibilityScore"; "analysis"; "simplified"]
       /\ result_field "flags" v = None
       /\ result_field "sources" v = None
       /\ result_field "details" v = None.
Proof.
  split; [reflexivity|]. split; [reflexivity|]. split; [reflexivity|].
  exact (proj1 (analyze_text_inference_fields
                  (installed (pipeline_of positive)) hello (start [])
                  (pipeline_of positive) positive
                  (Prediction (lit "POSITIVE") 0.9998) []
                  eq_refl eq_refl eq_refl)).
Defined.




Lemma analyze_image_decode_failure_witness :
  Image_open not_installed (file_bytes not_an_image)
  = inl (Exc UnidentifiedImageError (lit "cannot identify image file"))
  /\ serve not_installed (POST_analyze_image not_an_image) (start [])
     = (Response 500
          (VDict [("detail",
                   VStr (lit "Image processing failed: cannot identify image file"))]),
        start []).
Proof.
  split; [reflexivity|].
  exact (proj2 (analyze_image_decode_failure not_installed not_an_image
                  (start []) _ eq_refl)).
Defined.

Lemma analyze_image_valid_witness :
  Image_open not_installed (file_bytes png) = inr (Image (10, 20))
  /\ exists s w',
       serve not_installed (POST_analyze_image png) (start [draw 1 2])
       = (Response 200
            (result_of (VDict [
               ("type", VStr (lit "image"));
               ("credibilityScore", VFloat s);
               ("analysis", VStr (lit "Image processed: 10x20 pixels"));
               ("basic_analysis", VBool true)])),
          w')
       /\ uniform 0.5 0.9 (start [draw 1 2]) = (inr s, w')
       /\ rng w' = snd (random (rng (start [draw 1 2])))
       /\ (0.5 <= s)%Q /\ (s <= 0.9)%Q.
Proof.
  split; [reflexivity|].
  exact (analyze_image_valid not_installed png (start [draw 1 2]) 10 20
           eq_refl).
Defined.

End Runs.

(** * Further properties of the handlers *)

(** ** The mock scorer, draw by draw *)

Section MockDraws.

Context {G : Type} {RS : RandomSource G}.

(** [choice([True, False])] is [True] on index 0 and [False] on index 1. *)
Lemma choice_flag_index (w : world G) :
  choice [true; false] w
  = (inr (fst (randbelow 2 (rng w)) =? 0)%N,
     World (snd (randbelow 2 (rng w))) (next_handle w) (log w)).
Proof.
  unfold choice, bind, random_randbelow. cbn [List.length N.of_nat].
  change (N.pos (Pos.of_succ_nat 1)) with 2%N.
  pose proof (randbelow_range 2 (rng w) eq_refl) as Hlt.
  destruct (randbelow 2 (rng w)) as [i g]. cbn [fst snd] in *.
  assert (Hi : i = 0%N \/ i = 1%N) by lia.
  destruct Hi as [-> | ->]; reflexivity.
Qed.

(** [mock_analysis] on its three draws. *)
Lemma mock_analysis_by_draws
    (content_type : str) (input_text : option str) (w : world G) :
  let g1 := snd (random (rng w)) in
  let g2 := snd (randbelow 2 g1) in
  let g3 := snd (randbelow 2 g2) in
  mock_analysis content_type input_text w
  = (inr (mock_literal content_type input_text
            (0.3 + (0.9 - 0.3) * fst (random (rng w)))%Q
            (fst (randbelow 2 g1) =? 0)%N
            (fst (randbelow 2 g2) =? 0)%N),
     World g3 (next_handle w) (log w)).
Proof.
  cbv zeta. unfold mock_analysis, bind at 1. rewrite uniform_run.
  unfold bind at 1. rewrite choice_flag_index. cbn [rng next_handle log].
  unfold bind at 1. rewrite choice_flag_index. reflexivity.
Qed.

(** [mock_analysis] never raises and does nothing but draw: it takes
    [random()] once, then [_randbelow(2)] twice, in this order. The second
    draw is the bias flag and the third the manipulation flag, each raised
    on index 0; [type] is the content type given. The state reaches the
    result through the values of these three draws only, and the log of
    classifiers is left as it was. *)
Theorem mock_analysis_three_draws
    (content_type : str) (input_text : option str) (w : world G) :
  let g1 := snd (random (rng w)) in
  let g2 := snd (randbelow 2 g1) in
  let g3 := snd (randbelow 2 g2) in
  (exists r,
     mock_analysis content_type input_text w
     = (inr r, World g3 (next_handle w) (log w))
     /\ field "type" r = Some (VStr content_type)
     /\ flag "biasDetected" r
        = Some (VBool (fst (randbelow 2 g1) =? 0)%N)
     /\ flag "manipulatedContent" r
        = Some (VBool (fst (randbelow 2 g2) =? 0)%N))
  /\ (forall w2 : world G,
        let h1 := snd (random (rng w2)) in
        let h2 := snd (randbelow 2 h1) in
        fst (random (rng w2)) = fst (random (rng w)) ->
        fst (randbelow 2 h1) = fst (randbelow 2 g1) ->
        fst (randbelow 2 h2) = fst (randbelow 2 g2) ->
        fst (mock_analysis content_type input_text w2)
        = fst (mock_analysis content_type input_text w)).
Proof.
  cbv zeta. split.
  - rewrite mock_analysis_by_draws. cbv zeta. eexists. repeat split.
  - intros w2 E1 E2 E3. rewrite !mock_analysis_by_draws. cbv zeta.
    cbn [fst]. now rewrite E1, E2, E3.
Qed.

End MockDraws.

(** ** Key terms *)

Section KeyTerms.

Lemma Tokens_solid (s : str) (toks : list str) :
  Tokens s toks -> Forall solid toks.
Proof. induction 1; constructor; assumption. Qed.

Lemma split_solid (s : str) : Forall solid (split s).
Proof. exact (Tokens_solid s _ (split_Tokens s)). Qed.

Lemma blank_app (a b : str) : blank a -> blank b -> blank (a ++ b).
Proof.
  unfold blank. intros Ha Hb. rewrite forallb_app. now rewrite Ha, Hb.
Qed.

Lemma blank_at_boundary (s : str) : blank s -> at_boundary s.
Proof.
  unfold blank. destruct s as [|c s]; cbn; [trivial|].
  intros H. now apply andb_true_iff in H as [Hc _].
Qed.

(** No token exactly when there is nothing but whitespace. *)
Lemma split_nil_iff (s : str) : split s = [] <-> blank s.
Proof.
  split.
  - intros E. pose proof (split_Tokens s) as H. rewrite E in H.
    now inversion H.
  - intros H. symmetry. apply Tokens_split. now constructor.
Qed.

Lemma Tokens_pad_right (s ws : str) (toks : list str) :
  Tokens s toks -> blank ws -> Tokens (s ++ ws) toks.
Proof.
  intros H Hws.
  induction H as [ws0 H0 | ws0 t rest toks H0 Ht Hb _ IH].
  - constructor. now apply blank_app.
  - rewrite <- !app_assoc. constructor; try assumption.
    destruct rest as [|c r]; [|exact Hb].
    now apply blank_at_boundary.
Qed.

(** Whitespace around a string does not change its tokens. *)
Lemma split_pad (ws s ws' : str) :
  blank ws -> blank ws' -> split (ws ++ s ++ ws') = split s.
Proof.
  intros Hws Hws'. rewrite split_blank by exact Hws.
  symmetry. apply Tokens_split.
  apply Tokens_pad_right; [apply split_Tokens | exact Hws'].
Qed.

Lemma firstn_incl {A} (n : nat) (l : list A) (x : A) :
  In x (firstn n l) -> In x l.
Proof.
  intros H. rewrite <- (firstn_skipn n l). apply in_or_app. now left.
Qed.

Lemma truthy_split (x : option str) :
  (if truthy x then slice_to 5 (split (py_str x)) else [])
  = match x with
    | Some s => firstn 5 (split s)
    | None => []
    end.
Proof. now destruct x as [[|c s]|]. Qed.

Context {G : Type} {RS : RandomSource G}.

(** Every key term of a mock result is a word: it is not empty and has no
    whitespace in it. There is no key term at all exactly when the input
    is [None] or a string of whitespace only (the empty string is one). *)
Theorem mock_analysis_keyTerms_words
    (content_type : str) (input_text : option str) (w : world G) :
  exists r w' terms,
    mock_analysis content_type input_text w = (inr r, w')
    /\ detail "keyTerms" r = Some (VList (map VStr terms))
    /\ Forall (fun t => t <> []
                 /\ forall c, In c t -> isspace c = false) terms
    /\ (terms = []
        <-> match input_text with
            | Some s => forall c, In c s -> isspace c = true
            | None => True
            end).
Proof.
  rewrite mock_analysis_by_draws. cbv zeta.
  eexists _, _, _. split; [reflexivity|].
  split; [reflexivity|].
  rewrite truthy_split.
  destruct input_text as [s|]; [|split; [constructor | tauto]].
  split.
  - apply Forall_forall. intros t Ht.
    apply firstn_incl in Ht.
    pose proof (split_solid s) as Hall.
    rewrite Forall_forall in Hall. destruct (Hall t Ht) as [Hne Hns].
    split; [exact Hne|].
    intros c Hc. rewrite forallb_forall in Hns.
    apply negb_true_iff. now apply Hns.
  - rewrite <- (forallb_forall isspace s). fold (blank s).
    rewrite <- split_nil_iff.
    destruct (split s) as [|t l]; [tauto|].
    split; discriminate.
Qed.

(** Whitespace before and after the input changes nothing of what the
    mock scorer returns. *)
Theorem mock_analysis_ignores_padding
    (content_type : str) (ws s ws' : str) (w : world G) :
  (forall c, In c ws -> isspace c = true) ->
  (forall c, In c ws' -> isspace c = true) ->
  mock_analysis content_type (Some (ws ++ s ++ ws')) w
  = mock_analysis content_type (Some s) w.
Proof.
  intros Hws Hws'.
  rewrite <- (forallb_forall isspace ws) in Hws.
  rewrite <- (forallb_forall isspace ws') in Hws'.
  rewrite !mock_analysis_by_draws. cbv zeta.
  unfold mock_literal. rewrite !truthy_split.
  now rewrite (split_pad ws s ws' Hws Hws').
Qed.

End KeyTerms.

(** ** The message of the mock scorer *)

Section MockMessage.






Context {G : Type} {RS : RandomSource G}.


End MockMessage.

(** ** More on [POST /analyze/text] *)

Section TextMore.

Context {G : Type} {RS : RandomSource G}.

(** What the fallback answers depends on the random source only. *)
Lemma fallback_same_rng (request : TextAnalysisRequest) (w1 w2 : world G) :
  rng w1 = rng w2 ->
  fst (fallback request w1) = fst (fallback request w2)
  /\ rng (snd (fallback request w1)) = rng (snd (fallback request w2)).
Proof.
  intros E. unfold fallback, bind.
  rewrite !mock_analysis_by_draws. cbv zeta. rewrite E.
  split; reflexivity.
Qed.

(** Once a classifier is built, it is called once, on the text cut to
    its first 512 characters (the whole text when it has no more), and
    nothing else is done to it but, after an answer, [del] and
    [gc.collect()]; this whatever the classifier does. *)
Theorem analyze_text_classifier_argument
    (env : Env) (request : TextAnalysisRequest) (w : world G)
    (p : pipeline) (c : classifier) :
  transformers_import env = inr p ->
  p (lit "sentiment-analysis") model_name = inr c ->
  exists arg tail,
    log (snd (analyze_text env request w))
    = log w ++ Load (next_handle w) :: Call (next_handle w) arg :: tail
    /\ (tail = [] \/ tail = [Del (next_handle w); GcCollect])
    /\ arg = firstn 512 (text request)
    /\ List.length arg = Nat.min 512 (List.length (text request))
    /\ ((List.length (text request) <= 512)%nat -> arg = text request).
Proof.
  intros Hp Hc. rewrite analyze_text_cases. cbv zeta. rewrite Hp, Hc.
  exists (firstn 512 (text request)).
  assert (Hfb : forall w0 : world G,
            log (snd (fallback request w0)) = log w0).
  { intros w0.
    destruct (fallback_run request w0) as (r & w1 & Hf & _ & _ & Hl).
    now rewrite Hf. }
  assert (Harg : List.length (firstn 512 (text request))
                 = Nat.min 512 (List.length (text request))
                 /\ ((List.length (text request) <= 512)%nat ->
                     firstn 512 (text request) = text request)).
  { split; [apply length_firstn | apply firstn_all2]. }
  destruct (c (firstn 512 (text request))) as [e|[|pr rest]].
  - exists []. rewrite Hfb. split; [reflexivity|]. split; [now left|].
    split; [reflexivity | exact Harg].
  - eexists. rewrite Hfb. split; [reflexivity|]. split; [now right|].
    split; [reflexivity | exact Harg].
  - eexists. split; [reflexivity|]. split; [now right|].
    split; [reflexivity | exact Harg].
Qed.

(** When inference goes through, the answer depends on the first 512
    characters of the text and on nothing else of the request, and the
    random source is not drawn from. *)
Theorem analyze_text_inference_prefix_only
    (env : Env) (r1 r2 : TextAnalysisRequest) (w : world G)
    (pr : prediction) :
  inference env r1 = inr pr ->
  firstn 512 (text r1) = firstn 512 (text r2) ->
  analyze_text env r1 w = analyze_text env r2 w
  /\ rng (snd (analyze_text env r1 w)) = rng w.
Proof.
  unfold inference. intros Hinf Heq.
  rewrite !analyze_text_cases. cbv zeta. rewrite <- Heq.
  destruct (transformers_import env) as [e|p]; [discriminate|].
  destruct (p (lit "sentiment-analysis") model_name) as [e|c];
    [discriminate|].
  destruct (c (firstn 512 (text r1))) as [e|[|pr' rest]];
    try discriminate.
  split; reflexivity.
Qed.

(** Every failure on the way to a prediction gives the caller what a
    missing library gives: whether the import raises [ImportError], the
    factory raises, the classifier raises or it returns no prediction, the
    answer is the one of the mock scorer on the same draws, and nothing of
    the exception is in it. *)
Theorem analyze_text_failures_alike
    (env env0 : Env) (request : TextAnalysisRequest) (w : world G)
    (e e0 : exn) :
  import_settled env ->
  inference env request = inl e ->
  transformers_import env0 = inl e0 ->
  catches_ImportError e0 = true ->
  fst (analyze_text env request w) = fst (analyze_text env0 request w)
  /\ rng (snd (analyze_text env request w))
     = rng (snd (analyze_text env0 request w)).
Proof.
  unfold import_settled, inference. intros Hset Hinf Hp0 Hc0.
  rewrite !analyze_text_cases. cbv zeta. rewrite Hp0, Hc0.
  destruct (transformers_import env) as [e1|p].
  - rewrite Hset. split; reflexivity.
  - destruct (p (lit "sentiment-analysis") model_name) as [e1|c].
    + split; reflexivity.
    + destruct (c (firstn 512 (text request))) as [e1|[|pr rest]];
        try discriminate; now apply fallback_same_rng.
Qed.

End TextMore.

(** ** The responses of the service *)

(** The [type] a route puts in its results. *)
Definition kind_of (rq : request) : option str :=
  match rq with
  | POST_analyze_text _ => Some (lit "text")
  | POST_analyze_url _ => Some (lit "url")
  | POST_analyze_image _ => Some (lit "image")
  | POST_analyze_video _ => None
  end.

Section Responses.

Context {G : Type} {RS : RandomSource G}.

Lemma wrap_mock_run (content_type : str) (input_text : option str)
    (w : world G) :
  exists b1 b2 w',
    (r <- mock_analysis content_type input_text ;; ret (result_of r)) w
    = (inr (result_of (mock_literal content_type input_text
                         (0.3 + (0.9 - 0.3) * fst (random (rng w)))%Q
                         b1 b2)), w')
    /\ log w' = log w /\ next_handle w' = next_handle w.
Proof.
  unfold bind. rewrite mock_analysis_by_draws. cbv zeta.
  eexists _, _, _. repeat split.
Qed.

(** [analyze_image], path by path. *)
Lemma analyze_image_cases (env : Env) (file : UploadFile) (w : world G) :
  analyze_image env file w
  = match Image_open env (file_bytes file) with
    | inl e =>
        (inl (HTTPException 500
                (lit "Image processing failed: " ++ str_of_exn e)), w)
    | inr image =>
        (inr (result_of (VDict [
           ("type", VStr (lit "image"));
           ("credibilityScore",
            VFloat (0.5 + (0.9 - 0.5) * fst (random (rng w)))%Q);
           ("analysis", VStr (lit "Image processed: "
                              ++ str_of_int (fst (size image)) ++ lit "x"
                              ++ str_of_int (snd (size image))
                              ++ lit " pixels"));
           ("basic_analysis", VBool true)])),
         World (snd (random (rng w))) (next_handle w) (log w))
    end.
Proof.
  unfold analyze_image, try_except, bind, call, ret. cbv beta iota.
  destruct (Image_open env (file_bytes file)) as [e|image];
    [reflexivity|].
  now rewrite uniform_run.
Qed.

(** What a route did, as far as the response shows: a returned value
    under ["result"], or the exception that left the handler. *)
Lemma route_outcome (env : Env) (rq : request) (w : world G) :
  match rq with
  | POST_analyze_text request =>
      match transformers_import env with
      | inl e =>
          if catches_ImportError e
          then exists r, fst (route env rq w) = inr (result_of r)
                         /\ field "type" r = Some (VStr (lit "text"))
          else fst (route env rq w) = inl e
      | inr _ => exists r, fst (route env rq w) = inr (result_of r)
                           /\ field "type" r = Some (VStr (lit "text"))
      end
  | POST_analyze_url _ =>
      exists r, fst (route env rq w) = inr (result_of r)
                /\ field "type" r = Some (VStr (lit "url"))
  | POST_analyze_image file =>
      match Image_open env (file_bytes file) with
      | inl e =>
          fst (route env rq w)
          = inl (HTTPException 500
                   (lit "Image processing failed: " ++ str_of_exn e))
      | inr _ => exists r, fst (route env rq w) = inr (result_of r)
                           /\ field "type" r = Some (VStr (lit "image"))
      end
  | POST_analyze_video _ =>
      fst (route env rq w)
      = inl (HTTPException 501 (lit "Video analysis not implemented"))
  end.
Proof.
  assert (Hfb : forall request (w0 : world G),
            exists r, fst (fallback request w0) = inr (result_of r)
                      /\ field "type" r = Some (VStr (lit "text"))).
  { intros request w0. unfold fallback.
    destruct (wrap_mock_run (lit "text") (Some (text request)) w0)
      as (b1 & b2 & w' & H & _). rewrite H. eexists. now split. }
  destruct rq as [request | request | file | body]; cbn [route].
  - rewrite analyze_text_cases. cbv zeta.
    destruct (transformers_import env) as [e|p].
    + destruct (catches_ImportError e); [apply Hfb | reflexivity].
    + destruct (p (lit "sentiment-analysis") model_name) as [e|c];
        [apply Hfb|].
      destruct (c (firstn 512 (text request))) as [e|[|pr rest]];
        [apply Hfb | apply Hfb |].
      eexists. now split.
  - unfold analyze_url.
    destruct (wrap_mock_run (lit "url") (Some (url request)) w)
      as (b1 & b2 & w' & H & _). rewrite H. eexists. now split.
  - rewrite analyze_image_cases.
    destruct (Image_open env (file_bytes file)) as [e|img];
      [reflexivity|].
    eexists. now split.
  - reflexivity.
Qed.

(** The status of every answer: [POST /analyze/url] is always a 200;
    [POST /analyze/text] is a 200 unless the import of [transformers]
    raises something that is not an [ImportError], then a 500 (the
    status of the exception, should it be an [HTTPException]);
    [POST /analyze/image] is a 200 when [Image.open] accepts the bytes and
    a 500 when not; [POST /analyze/video] is always a 501. *)
Theorem serve_status (env : Env) (rq : request) (w : world G) :
  status_code_of (fst (serve env rq w))
  = match rq with
    | POST_analyze_text _ =>
        match transformers_import env with
        | inl (Exc c _) => if is_ImportError c then 200 else 500
        | inl (HTTPException sc _) => sc
        | inr _ => 200
        end
    | POST_analyze_url _ => 200
    | POST_analyze_image file =>
        match Image_open env (file_bytes file) with
        | inl _ => 500
        | inr _ => 200
        end
    | POST_analyze_video _ => 501
    end.
Proof.
  pose proof (route_outcome env rq w) as H.
  unfold serve. destruct (route env rq w) as [out w'] eqn:E.
  cbn [fst] in *.
  destruct rq as [request | request | file | body].
  - destruct (transformers_import env) as [[c msg|sc d]|p];
      cbn [catches_ImportError] in H.
    + destruct (is_ImportError c).
      * destruct H as (r & -> & _). reflexivity.
      * now subst out.
    + now subst out.
    + destruct H as (r & -> & _). reflexivity.
  - destruct H as (r & -> & _). reflexivity.
  - destruct (Image_open env (file_bytes file)) as [e|img].
    + now subst out.
    + destruct H as (r & -> & _). reflexivity.
  - now subst out.
Qed.

(** As long as the import of [transformers] raises no [HTTPException],
    an answer has a result exactly when its status is 200, and then the
    [type] of the result names the route: "text", "url" or "image". An
    answer with another status has no ["result"] in its body. *)
Theorem serve_result_iff_200 (env : Env) (rq : request) (w : world G) :
  (forall sc d, transformers_import env <> inl (HTTPException sc d)) ->
  let resp := fst (serve env rq w) in
  (status_code_of resp = 200 ->
   exists k, kind_of rq = Some k
             /\ result_field "type" (body_of resp) = Some (VStr k))
  /\ (status_code_of resp <> 200 -> field "result" (body_of resp) = None).
Proof.
  intros Hnohttp. cbv zeta.
  pose proof (route_outcome env rq w) as H.
  unfold serve in *. destruct (route env rq w) as [out w'] eqn:E.
  cbn [fst] in *.
  assert (Hok : forall r k,
            field "type" r = Some (VStr k) ->
            (status_code_of (respond (inr (result_of r))) = 200 ->
             exists k', Some k = Some k'
                        /\ result_field "type"
                             (body_of (respond (inr (result_of r))))
                           = Some (VStr k'))
            /\ (status_code_of (respond (inr (result_of r))) <> 200 ->
                field "result" (body_of (respond (inr (result_of r))))
                = None)).
  { intros r k Ht. split.
    - intros _. exists k. split; [reflexivity | exact Ht].
    - intros Hne. now destruct Hne. }
  destruct rq as [request | request | file | body]; cbn [kind_of].
  - destruct (transformers_import env) as [[c msg|sc d]|p];
      cbn [catches_ImportError] in H.
    + destruct (is_ImportError c).
      * destruct H as (r & -> & Ht). now apply Hok.
      * subst out. split; [discriminate | reflexivity].
    + now destruct (Hnohttp sc d).
    + destruct H as (r & -> & Ht). now apply Hok.
  - destruct H as (r & -> & Ht). now apply Hok.
  - destruct (Image_open env (file_bytes file)) as [e|img].
    + subst out. split; [discriminate | reflexivity].
    + destruct H as (r & -> & Ht). now apply Hok.
  - subst out. split; [discriminate | reflexivity].
Qed.

End Responses.

(** ** Classifiers over a run of requests *)

(** The service answers requests one after the other. *)
Fixpoint serve_all {G} {RS : RandomSource G} (env : Env)
    (rqs : list request) (w : world G) : list response * world G :=
  match rqs with
  | [] => ([], w)
  | rq :: rest =>
      let (r, w1) := serve env rq w in
      let (rs, w2) := serve_all env rest w1 in
      (r :: rs, w2)
  end.

Definition is_text (rq : request) : bool :=
  match rq with
  | POST_analyze_text _ => true
  | _ => false
  end.

(** How many times a log builds a classifier, calls one, deletes one. *)
Definition builds (es : list event) : nat :=
  List.length (filter (fun e => match e with Load _ => true | _ => false end) es).

Definition calls (es : list event) : nat :=
  List.length (filter (fun e => match e with Call _ _ => true | _ => false end) es).

Definition dels (es : list event) : nat :=
  List.length (filter (fun e => match e with Del _ => true | _ => false end) es).

Section Sessions.

Context {G : Type} {RS : RandomSource G}.

(** One request: a text request builds at most one classifier, calls
    what it built once, and deletes at most that; the other requests do
    nothing of the kind. *)
Lemma serve_counts (env : Env) (rq : request) (w : world G) :
  exists es,
    log (snd (serve env rq w)) = log w ++ es
    /\ calls es = builds es
    /\ (dels es <= builds es)%nat
    /\ (builds es <= if is_text rq then 1 else 0)%nat.
Proof.
  assert (Hsnd : snd (serve env rq w) = snd (route env rq w)).
  { unfold serve. now destruct (route env rq w). }
  rewrite Hsnd.
  assert (Hnone : forall (w' : world G) (b : bool),
            log w' = log w ->
            exists es, log w' = log w ++ es
                       /\ calls es = builds es
                       /\ (dels es <= builds es)%nat
                       /\ (builds es <= if b then 1 else 0)%nat).
  { intros w' b Hl. exists []. rewrite app_nil_r.
    split; [exact Hl|]. cbn. destruct b; repeat split; lia. }
  destruct rq as [request | request | file | body]; cbn [route is_text].
  - pose proof (analyze_text_log env request w) as H. cbv zeta in H.
    destruct H as [[Hl _] | [[Hl _] | [Hl _]]].
    + now apply (Hnone _ true).
    + eexists. split; [exact Hl|]. cbn. repeat split; lia.
    + eexists. split; [exact Hl|]. cbn. repeat split; lia.
  - unfold analyze_url.
    destruct (wrap_mock_run (lit "url") (Some (url request)) w)
      as (b1 & b2 & w' & H & Hl & _).
    rewrite H. now apply (Hnone _ false).
  - rewrite analyze_image_cases.
    destruct (Image_open env (file_bytes file)); now apply (Hnone _ false).
  - now apply (Hnone _ false).
Qed.

(** Over any run of requests only the text requests build or call a
    classifier: there are as many calls of a classifier as classifiers
    built, one per text request at most, and no more [del] than
    classifiers built. *)
Theorem serve_all_classifier_per_text_request
    (env : Env) (rqs : list request) (w : world G) :
  exists es,
    log (snd (serve_all env rqs w)) = log w ++ es
    /\ calls es = builds es
    /\ (dels es <= builds es)%nat
    /\ (builds es <= List.length (filter is_text rqs))%nat.
Proof.
  revert w. induction rqs as [|rq rest IH]; intros w; cbn [serve_all].
  - exists []. rewrite app_nil_r. cbn. repeat split; lia.
  - destruct (serve_counts env rq w) as (es1 & Hl1 & Hc1 & Hd1 & Hb1).
    destruct (serve env rq w) as [r w1]. cbn [snd] in *.
    destruct (IH w1) as (es2 & Hl2 & Hc2 & Hd2 & Hb2).
    destruct (serve_all env rest w1) as [rs w2]. cbn [snd] in *.
    exists (es1 ++ es2).
    split; [now rewrite Hl2, Hl1, app_assoc|].
    unfold calls, builds, dels in *.
    rewrite !filter_app, !length_app. cbn [filter].
    destruct (is_text rq); cbn [List.length]; repeat split; lia.
Qed.

End Sessions.

(** ** The message of [POST /analyze/image] *)

Section ImageMessage.

Lemma lit_inj (s t : string) : lit s = lit t -> s = t.
Proof.
  unfold lit. intros H.
  rewrite <- (string_of_list_ascii_of_string s),
          <- (string_of_list_ascii_of_string t).
  f_equal. revert H.
  generalize (list_ascii_of_string s) (list_ascii_of_string t).
  induction l as [|a l IH]; intros [|b l']; cbn [map]; try discriminate.
  - reflexivity.
  - intros H. injection H as Hab Hl. f_equal; [|now apply IH].
    now rewrite <- (ascii_N_embedding a), <- (ascii_N_embedding b), Hab.
Qed.

Lemma to_int_proper (n : Z) :
  Z.to_int n <> Decimal.Pos Decimal.Nil
  /\ Z.to_int n <> Decimal.Neg Decimal.Nil.
Proof.
  destruct n as [|p|p]; cbn; split; try discriminate;
    intros [= H]; now apply (DecimalPos.Unsigned.to_uint_nonnil p).
Qed.

(** [str] of an [int] can be read back: two ints with the same decimal
    writing are the same. *)
Lemma str_of_int_inj (a b : Z) : str_of_int a = str_of_int b -> a = b.
Proof.
  unfold str_of_int. intros H. apply lit_inj in H.
  apply DecimalZ.to_int_inj.
  destruct (to_int_proper a) as [Ha1 Ha2].
  destruct (to_int_proper b) as [Hb1 Hb2].
  pose proof (NilZero.isi _ Ha1 Ha2) as Ea.
  pose proof (NilZero.isi _ Hb1 Hb2) as Eb.
  rewrite H in Ea. rewrite Ea in Eb. now injection Eb.
Qed.

Definition sign_or_digit (c : char) : Prop :=
  c = 45%N \/ (48 <= c <= 57)%N.

Lemma uint_chars (d : Decimal.uint) :
  Forall sign_or_digit (lit (NilEmpty.string_of_uint d)).
Proof.
  induction d; cbn; constructor; try assumption; right; lia.
Qed.

Lemma str_of_int_chars (n : Z) : Forall sign_or_digit (str_of_int n).
Proof.
  unfold str_of_int.
  assert (Hu : forall d, Forall sign_or_digit (lit (NilZero.string_of_uint d))).
  { intros d. destruct d; try apply (uint_chars (_ _)).
    cbn. constructor; [right; lia | constructor]. }
  destruct (Z.to_int n) as [d|d]; cbn [NilZero.string_of_int].
  - apply Hu.
  - change (lit (String "-" (NilZero.string_of_uint d)))
      with (45%N :: lit (NilZero.string_of_uint d)).
    constructor; [now left | apply Hu].
Qed.

Lemma str_of_int_no_x (n : Z) : ~ In 120%N (str_of_int n).
Proof.
  intros H. pose proof (str_of_int_chars n) as Hall.
  rewrite Forall_forall in Hall. destruct (Hall _ H) as [E|E]; lia.
Qed.

Lemma split_at_first {A} (x : A) (a a' b b' : list A) :
  ~ In x a -> ~ In x a' ->
  a ++ x :: b = a' ++ x :: b' -> a = a' /\ b = b'.
Proof.
  revert a'. induction a as [|y a IH]; intros [|y' a'] Ha Ha' E;
    cbn [app] in E.
  - injection E as ->. now split.
  - injection E as -> _. destruct Ha'. now left.
  - injection E as -> _. destruct Ha. now left.
  - injection E as -> E.
    destruct (IH a') as [-> ->]; try assumption.
    + intros H. apply Ha. now right.
    + intros H. apply Ha'. now right.
    + now split.
Qed.

Lemma image_size_inj (wd ht wd' ht' : Z) (tail : str) :
  str_of_int wd ++ 120%N :: str_of_int ht ++ tail
  = str_of_int wd' ++ 120%N :: str_of_int ht' ++ tail ->
  wd = wd' /\ ht = ht'.
Proof.
  intros H.
  apply split_at_first in H; try apply str_of_int_no_x.
  destruct H as [Hw Hh]. apply app_inv_tail in Hh.
  split; now apply str_of_int_inj.
Qed.

(** The analysis of an image tells its size: two sizes with the same
    message are the same size. *)
Lemma image_message_inj (wd ht wd' ht' : Z) :
  lit "Image processed: " ++ str_of_int wd ++ lit "x" ++ str_of_int ht
    ++ lit " pixels"
  = lit "Image processed: " ++ str_of_int wd' ++ lit "x" ++ str_of_int ht'
    ++ lit " pixels" ->
  wd = wd' /\ ht = ht'.
Proof.
  intros H. apply app_inv_head in H.
  change (lit "x") with [120%N] in H. cbn [app] in H.
  exact (image_size_inj _ _ _ _ _ H).
Qed.

Context {G : Type} {RS : RandomSource G}.

(** Two uploads that are answered with the same analysis have the same
    width and the same height: the message tells the size, whatever the
    scores drawn. *)
Theorem analyze_image_message_tells_size
    (env : Env) (f1 f2 : UploadFile) (w1 w2 : world G)
    (img1 img2 : image) (m : value) :
  Image_open env (file_bytes f1) = inr img1 ->
  Image_open env (file_bytes f2) = inr img2 ->
  result_field "analysis" (body_of (fst (serve env (POST_analyze_image f1) w1)))
  = Some m ->
  result_field "analysis" (body_of (fst (serve env (POST_analyze_image f2) w2)))
  = Some m ->
  size img1 = size img2.
Proof.
  intros H1 H2. unfold serve, route.
  rewrite !analyze_image_cases, H1, H2.
  cbn [fst respond body_of]. intros E1 E2.
  rewrite <- E2 in E1. clear E2.
  unfold result_field, result_of, field in E1.
  cbn [lookup String.eqb Ascii.eqb Bool.eqb] in E1.
  injection E1 as E.
  apply image_size_inj in E. destruct E as [Ew Eh].
  destruct (size img1), (size img2). cbn [fst snd] in *. now subst.
Qed.

End ImageMessage.

(** ** The fact-checking flags in binary64 *)

Section Binary64Flags.

Import Binary64.

(** The literal [0.6] as binary64, over [2^54]. *)
Definition f06 : Z := 10808639105689190.

(** In binary64 the mock score is below the float [0.6], so that the two
    fact-checking flags are raised, exactly for the draws [k / 2^53] with
    [k <= 2^52 - 2]: one draw fewer than those below one half, the score
    of [(2^52 - 1) / 2^53] being rounded up to [0.6]. *)
Theorem uniform64_below_06 (k : Z) :
  0 <= k < 2 ^ 53 ->
  (uniform64 f03 f09 k < f06 * 2 ^ 53 <-> k <= 2 ^ 52 - 2).
Proof.
  intros [Hk0 Hk1].
  assert (E0 : uniform64 f03 f09 (2 ^ 52 - 2) < f06 * 2 ^ 53)
    by (vm_compute; reflexivity).
  assert (E1 : f06 * 2 ^ 53 <= uniform64 f03 f09 (2 ^ 52 - 1))
    by (vm_compute; discriminate).
  split; intros H.
  - destruct (Z.le_gt_cases k (2 ^ 52 - 2)) as [|Hgt]; [assumption|].
    assert (uniform64 f03 f09 (2 ^ 52 - 1) <= uniform64 f03 f09 k)
      by (apply uniform64_mono; unfold f03, f09; lia).
    lia.
  - assert (uniform64 f03 f09 k <= uniform64 f03 f09 (2 ^ 52 - 2))
      by (apply uniform64_mono; unfold f03, f09; lia).
    lia.
Qed.

#[local] Set Warnings "-inexact-float".

(** The same on the floats of the kernel, at the two draws around the
    threshold. *)
Example binary64_threshold :
  scaled 54 0.6 = Some f06
  /\ scaled 53 0x1.ffffffffffffcp-2 = Some (2 ^ 52 - 2)
  /\ scaled 53 0x1.ffffffffffffep-2 = Some (2 ^ 52 - 1)
  /\ (py_uniform 0.3 0.9 0x1.ffffffffffffcp-2 <? 0.6)%float = true
  /\ (py_uniform 0.3 0.9 0x1.ffffffffffffep-2 <? 0.6)%float = false.
Proof. vm_compute. repeat split. Qed.

Lemma uniform64_03_09_witness :
  0 <= 2 ^ 53 - 1 < 2 ^ 53
  /\ f03 * 2 ^ 53 <= uniform64 f03 f09 (2 ^ 53 - 1) < f09 * 2 ^ 53.
Proof.
  split; [lia|]. apply (uniform64_03_09 (2 ^ 53 - 1)). lia.
Defined.

Lemma uniform64_05_09_witness :
  0 <= 2 ^ 53 - 1 < 2 ^ 53
  /\ f05 * 2 ^ 53 <= uniform64 f05 f09 (2 ^ 53 - 1) <= f09 * 2 ^ 53.
Proof.
  split; [lia|]. apply (uniform64_05_09 (2 ^ 53 - 1)). lia.
Defined.

Lemma uniform64_below_06_witness :
  0 <= 2 ^ 52 - 1 < 2 ^ 53
  /\ (uniform64 f03 f09 (2 ^ 52 - 1) < f06 * 2 ^ 53
      <-> 2 ^ 52 - 1 <= 2 ^ 52 - 2).
Proof.
  split; [lia|]. apply (uniform64_below_06 (2 ^ 52 - 1)). lia.
Defined.

End Binary64Flags.

(** ** The further properties on concrete requests *)

Module MoreRuns.

Import Scripted Fixtures Runs.

Definition spaces : str := lit "  ".

Lemma spaces_blank (c : char) : In c spaces -> isspace c = true.
Proof. intros [<-|[<-|[]]]; reflexivity. Defined.

Lemma mock_analysis_ignores_padding_witness :
  (forall c, In c spaces -> isspace c = true)
  /\ (forall c, In c spaces -> isspace c = true)
  /\ mock_analysis (lit "url") (Some (spaces ++ lit "moon cheese" ++ spaces))
       (start [draw 1 4; 0; 1]%N)
     = mock_analysis (lit "url") (Some (lit "moon cheese"))
         (start [draw 1 4; 0; 1]%N).
Proof.
  split; [exact spaces_blank|]. split; [exact spaces_blank|].
  exact (mock_analysis_ignores_padding (lit "url") spaces (lit "moon cheese")
           spaces (start [draw 1 4; 0; 1]%N) spaces_blank spaces_blank).
Defined.

Lemma analyze_text_classifier_argument_witness :
  transformers_import (installed (pipeline_of failing))
  = inr (pipeline_of failing)
  /\ pipeline_of failing (lit "sentiment-analysis") model_name = inr failing
  /\ exists arg tail,
       log (snd (analyze_text (installed (pipeline_of failing)) hello
                   (start [draw 1 2; 0; 1]%N)))
       = [] ++ Load 0%nat :: Call 0%nat arg :: tail
       /\ (tail = [] \/ tail = [Del 0%nat; GcCollect])
       /\ arg = firstn 512 (text hello)
       /\ List.length arg = Nat.min 512 (List.length (text hello))
       /\ ((List.length (text hello) <= 512)%nat -> arg = text hello).
Proof.
  split; [reflexivity|]. split; [reflexivity|].
  exact (analyze_text_classifier_argument
           (installed (pipeline_of failing)) hello
           (start [draw 1 2; 0; 1]%N) (pipeline_of failing) failing
           eq_refl eq_refl).
Defined.

(** The 600 characters of [long_text], the last 88 of them changed. *)
Definition long_text' : TextAnalysisRequest :=
  {| text := repeat 97%N 512 ++ repeat 98%N 88 |}.

Lemma analyze_text_inference_prefix_only_witness :
  inference (installed (pipeline_of measuring)) long_text
  = inr (Prediction (lit "512") 0.75)
  /\ firstn 512 (text long_text) = firstn 512 (text long_text')
  /\ analyze_text (installed (pipeline_of measuring)) long_text (start [])
     = analyze_text (installed (pipeline_of measuring)) long_text' (start [])
  /\ rng (snd (analyze_text (installed (pipeline_of measuring)) long_text
                 (start [])))
     = [].
Proof.
  split; [reflexivity|]. split; [reflexivity|].
  exact (analyze_text_inference_prefix_only
           (installed (pipeline_of measuring)) long_text long_text'
           (start []) (Prediction (lit "512") 0.75) eq_refl eq_refl).
Defined.

Lemma analyze_text_failures_alike_witness :
  import_settled (installed (pipeline_of failing))
  /\ inference (installed (pipeline_of failing)) hello
     = inl (Exc RuntimeError (lit "CUDA out of memory"))
  /\ transformers_import not_installed
     = inl (Exc ModuleNotFoundError (lit "No module named 'transformers'"))
  /\ catches_ImportError
       (Exc ModuleNotFoundError (lit "No module named 'transformers'"))
     = true
  /\ fst (analyze_text (installed (pipeline_of failing)) hello
            (start [draw 1 2; 0; 1]%N))
     = fst (analyze_text not_installed hello (start [draw 1 2; 0; 1]%N))
  /\ rng (snd (analyze_text (installed (pipeline_of failing)) hello
                 (start [draw 1 2; 0; 1]%N)))
     = rng (snd (analyze_text not_installed hello
                   (start [draw 1 2; 0; 1]%N))).
Proof.
  split; [exact I|]. split; [reflexivity|]. split; [reflexivity|].
  split; [reflexivity|].
  exact (analyze_text_failures_alike
           (installed (pipeline_of failing)) not_installed hello
           (start [draw 1 2; 0; 1]%N) _ _ I eq_refl eq_refl eq_refl).
Defined.

Lemma not_installed_no_http (sc : Z) (d : str) :
  transformers_import not_installed <> inl (HTTPException sc d).
Proof. discriminate. Defined.

Lemma serve_result_iff_200_witness :
  (forall sc d, transformers_import not_installed <> inl (HTTPException sc d))
  /\ let resp := fst (serve not_installed (POST_analyze_image not_an_image)
                        (start [])) in
     (status_code_of resp = 200 ->
      exists k, kind_of (POST_analyze_image not_an_image) = Some k
                /\ result_field "type" (body_of resp) = Some (VStr k))
     /\ (status_code_of resp <> 200 -> field "result" (body_of resp) = None).
Proof.
  split; [exact not_installed_no_http|].
  exact (serve_result_iff_200 not_installed (POST_analyze_image not_an_image)
           (start []) not_installed_no_http).
Defined.

(** The same file with one more byte after its end. *)
Definition png_longer : UploadFile :=
  {| file_bytes := png_10x20 ++ [x00]%byte |}.

Lemma analyze_image_message_tells_size_witness :
  Image_open not_installed (file_bytes png) = inr (Image (10, 20))
  /\ Image_open not_installed (file_bytes png_longer) = inr (Image (10, 20))
  /\ result_field "analysis"
       (body_of (fst (serve not_installed (POST_analyze_image png)
                        (start [draw 1 2]))))
     = Some (VStr (lit "Image processed: 10x20 pixels"))
  /\ result_field "analysis"
       (body_of (fst (serve not_installed (POST_analyze_image png_longer)
                        (start [draw 1 4]))))
     = Some (VStr (lit "Image processed: 10x20 pixels"))
  /\ size (Image (10, 20)) = size (Image (10, 20)).
Proof.
  split; [reflexivity|]. split; [reflexivity|].
  split; [reflexivity|]. split; [reflexivity|].
  exact (analyze_image_message_tells_size not_installed png png_longer
           (start [draw 1 2]) (start [draw 1 4]) _ _ _
           eq_refl eq_refl eq_refl eq_refl).
Defined.

End MoreRuns.
